(** * factory-class-crud-generator: soft-delete CRUD over discovered models

  A shallow embedding of [src/models/base.py], [src/models/product.py],
  [src/models/offer.py] and [src/app/crud_generator.py].

  The relational database and the ORM session are external collaborators
  of the program.  They are represented by the small module [ORM] below:
  tables are lists of rows in scan order, a row maps column names to
  values, and a flush either applies one INSERT or UPDATE statement or
  reports an error and leaves the committed state as it was. *)

From stdpp Require Import gmap strings list fin_maps.
From Stdlib Require Import ZArith Ascii.

Local Open Scope string_scope.
Local Open Scope Z_scope.

(** ** Python values and dictionaries *)

Module Py.

(** [str.lower()] on the ASCII range (class names are identifiers). *)
Definition lower_char (c : ascii) : ascii :=
  let n := nat_of_ascii c in
  if ((65 <=? n) && (n <=? 90))%nat then ascii_of_nat (n + 32) else c.

Fixpoint lower (s : string) : string :=
  match s with
  | EmptyString => EmptyString
  | String c s' => String (lower_char c) (lower s')
  end.

(** A [dict] with string keys: insertion-ordered, one entry per key. *)
Abbreviation dict V := (list (string * V)).

Definition keys {V} (d : dict V) : list string := d.*1.

Fixpoint dict_get {V} (d : dict V) (k : string) : option V :=
  match d with
  | [] => None
  | (k', v) :: d' => if bool_decide (k' = k) then Some v else dict_get d' k
  end.

(** [d[k] = v]: an existing key keeps its position. *)
Fixpoint dict_set {V} (d : dict V) (k : string) (v : V) : dict V :=
  match d with
  | [] => [(k, v)]
  | (k', v') :: d' =>
      if bool_decide (k' = k) then (k', v) :: d' else (k', v') :: dict_set d' k v
  end.

(** Values that travel between a request body, a model instance and a
    table cell. *)
Inductive Value : Type :=
| VNone
| VInt (n : Z)
| VStr (s : string)
| VBool (b : bool)
| VDateTime (t : Z)
| VEnum (member : string).

#[global] Instance Value_eq_dec : EqDecision Value.
Proof. solve_decision. Defined.

(** What a raised exception carries. *)
Inductive Violation : Type :=
| NotNullViolation (column : string)
| UniqueViolation (column : string)
| ForeignKeyViolation (column : string).

Inductive Detail : Type :=
| DetailText (s : string)
| DetailIntegrity (orig : Violation).

Inductive Exception : Type :=
| HTTPException (status_code : Z) (detail : Detail)
| IntegrityError (orig : Violation)
| DataError (column : string)
| TypeError (key : string).

Inductive Result (A : Type) : Type :=
| Return (a : A)
| Raise (e : Exception).
Arguments Return {A} a.
Arguments Raise {A} e.

Definition HTTP_400_BAD_REQUEST : Z := 400.
Definition HTTP_404_NOT_FOUND : Z := 404.

End Py.
Import Py.

(** ** The ORM and the database behind it *)

Module ORM.

Inductive ColType : Type :=
| Integer
| String_ (length : nat)
| DateTime
| Boolean
| Enum (enum_cls : string) (members : list string)
| NullType.

Inductive PyType : Type :=
| py_int | py_str | py_datetime | py_bool | py_enum (enum_cls : string).

(** [column.type.python_type]; [None] stands for [NotImplementedError]. *)
Definition python_type (t : ColType) : option PyType :=
  match t with
  | Integer => Some py_int
  | String_ _ => Some py_str
  | DateTime => Some py_datetime
  | Boolean => Some py_bool
  | Enum cls _ => Some (py_enum cls)
  | NullType => None
  end.

(** [column.default]: a scalar default has an [arg], a sequence has none. *)
Inductive ColumnDefault : Type :=
| ScalarDefault (arg : Value)
| Sequence (seq_name : string).

Record Column : Type := mkColumn {
  name : string;
  type_ : ColType;
  primary_key : bool;
  nullable : bool;
  default : option ColumnDefault;
  onupdate : option Value;
  foreign_key : option (string * string)
}.

(** A mapped class: the columns it declares itself, and the names of its
    other attributes (relationships, methods, inherited members). *)
Record ModelClass : Type := mkModel {
  __name__ : string;
  own_columns : list Column;
  other_attrs : list string
}.

Abbreviation Row := (gmap string Value).
Abbreviation Table := (list (gmap string Value)).
Abbreviation DB := (gmap string (list (gmap string Value))).

Definition getattr (r : Row) (k : string) : Value := option.default VNone (r !! k).

(** Does a cell of type [t] store [v]?  NULL fits every type; there are no
    implicit conversions. *)
Definition accepts (t : ColType) (v : Value) : bool :=
  match v, t with
  | VNone, _ => true
  | VInt n, Integer => bool_decide (- 2147483648 <= n < 2147483648)
  | VStr s, String_ len => bool_decide (String.length s <= len)%nat
  | VDateTime _, DateTime => true
  | VBool _, Boolean => true
  | VEnum m, Enum _ members => bool_decide (m ∈ members)
  | _, _ => false
  end.

Definition id_is (item_id : Z) (r : Row) : bool :=
  bool_decide (r !! "id" = Some (VInt item_id)).

(** The SQL condition [WHERE is_active]. *)
Definition is_active (r : Row) : bool :=
  bool_decide (r !! "is_active" = Some (VBool true)).

Definition table (db : DB) (tablename : string) : Table :=
  option.default [] (db !! tablename).

(** [Query.first()] *)
Definition first (rows : Table) : option Row := head rows.

(** [Query.offset(skip).limit(limit).all()].  The database rejects a
    negative OFFSET or LIMIT. *)
Definition offset_limit_all (skip limit : Z) (rows : Table) : Result Table :=
  if bool_decide (skip < 0) then Raise (DataError "OFFSET")
  else if bool_decide (limit < 0) then Raise (DataError "LIMIT")
  else Return (take (Z.to_nat limit) (drop (Z.to_nat skip) rows)).

(** *** Flushing an INSERT

    A column whose attribute is unset or [None] is left out of the INSERT,
    so that its default, or the generated key of an integer primary key,
    applies.  [new_id] is the key the database generates for this row. *)
Definition insert_value (new_id : Z) (attrs : Row) (c : Column) : Value :=
  match getattr attrs (name c) with
  | VNone =>
      match default c with
      | Some (ScalarDefault v) => v
      | Some (Sequence _) => VInt new_id
      | None =>
          match primary_key c, type_ c with
          | true, Integer => VInt new_id
          | _, _ => VNone
          end
      end
  | v => v
  end.

Definition insert_row (cols : list Column) (new_id : Z) (attrs : Row) : Row :=
  list_to_map (map (fun c => (name c, insert_value new_id attrs c)) cols).

Definition check_types (cols : list Column) (r : Row) : option Column :=
  find (fun c => negb (accepts (type_ c) (getattr r (name c)))) cols.

Definition check_not_null (cols : list Column) (r : Row) : option Column :=
  find (fun c =>
          negb (nullable c) && bool_decide (getattr r (name c) = VNone)) cols.

Definition check_unique (cols : list Column) (others : Table) (r : Row)
  : option Column :=
  find (fun c =>
          primary_key c &&
          existsb (fun r' =>
                     bool_decide (getattr r' (name c) = getattr r (name c)))
                  others) cols.

Definition references (db : DB) (fk : string * string) (v : Value) : bool :=
  existsb (fun r' => bool_decide (getattr r' fk.2 = v)) (table db fk.1).

Definition check_foreign_keys (cols : list Column) (db : DB) (r : Row)
  : option Column :=
  find (fun c =>
          match foreign_key c with
          | Some fk =>
              negb (bool_decide (getattr r (name c) = VNone))
              && negb (references db fk (getattr r (name c)))
          | None => false
          end) cols.

(** The constraints of a statement, in the order the database reports
    them; [cols] are the columns the statement writes. *)
Definition check_statement (all_cols cols : list Column)
    (others : Table) (db' : DB) (r : Row) : option Exception :=
  match check_types cols r with
  | Some c => Some (DataError (name c))
  | None =>
  match check_not_null all_cols r with
  | Some c => Some (IntegrityError (NotNullViolation (name c)))
  | None =>
  match check_unique cols others r with
  | Some c => Some (IntegrityError (UniqueViolation (name c)))
  | None =>
  match check_foreign_keys cols db' r with
  | Some c => Some (IntegrityError (ForeignKeyViolation (name c)))
  | None => None
  end end end end.

(** [db.add(obj); db.commit()] for a new object. *)
Definition flush_insert (cols : list Column) (tablename : string)
    (db : DB) (r : Row) : Result DB :=
  let db' := <[tablename := (table db tablename ++ [r])%list]> db in
  match check_statement cols cols (table db tablename) db' r with
  | Some e => Raise e
  | None => Return db'
  end.

(** *** Flushing an UPDATE

    Only attributes whose value differs from the loaded one are written.
    When there is at least one, every other column with an [onupdate]
    value is written with it.  Nothing changed means no statement. *)
Definition changed (old new : Row) (c : Column) : bool :=
  bool_decide (getattr new (name c) ≠ getattr old (name c)).

Definition set_clause (cols : list Column) (old new : Row)
  : list (Column * Value) :=
  if forallb (fun c => negb (changed old new c)) cols then []
  else
    omap (fun c =>
            if changed old new c then Some (c, getattr new (name c))
            else (fun v => (c, v)) <$> onupdate c) cols.

Definition apply_set (sets : list (Column * Value)) (r : Row) : Row :=
  foldl (fun r' cv => <[name cv.1 := cv.2]> r') r sets.

(** [WHERE id = :pk]: the row of the loaded object. *)
Definition same_identity (obj r : Row) : bool :=
  bool_decide (r !! "id" = obj !! "id").

Definition sql_update (sets : list (Column * Value)) (obj : Row) (rows : Table)
  : Table :=
  map (fun r => if same_identity obj r then apply_set sets r else r) rows.

(** [db.commit()] with a loaded object [old] whose attributes are now [new]. *)
Definition flush_update (cols : list Column) (tablename : string)
    (db : DB) (old new : Row) : Result DB :=
  match set_clause cols old new with
  | [] => Return db
  | sets =>
      let rows := table db tablename in
      let db' := <[tablename := sql_update sets old rows]> db in
      let others := filter (fun r => negb (same_identity old r)) rows in
      match check_statement cols sets.*1 others db' (apply_set sets old) with
      | Some e => Raise e
      | None => Return db'
      end
  end.

(** [db.refresh(obj)]: load the row of the object again. *)
Definition refresh (tablename : string) (db : DB) (obj : Row) : Row :=
  option.default obj (first (filter (same_identity obj) (table db tablename))).

End ORM.
Import ORM.

(** ** Pydantic schemas and the registered routes *)

Module Web.

Inductive Annotation : Type :=
| Plain (t : PyType)
| Optional (t : PyType).

(** The default of a schema field; [Ellipsis] marks a required field. *)
Inductive FieldDefault : Type :=
| Ellipsis
| DefaultValue (v : Value).

Record PydanticModel : Type := create_model {
  model_name : string;
  model_fields : dict (Annotation * FieldDefault)
}.

Definition instance_of (t : PyType) (v : Value) : bool :=
  match t, v with
  | py_int, VInt _ => true
  | py_str, VStr _ => true
  | py_datetime, VDateTime _ => true
  | py_bool, VBool _ => true
  | py_enum _, VEnum _ => true
  | _, _ => false
  end.

Definition value_matches (a : Annotation) (v : Value) : bool :=
  match a with
  | Plain t => instance_of t v
  | Optional t => bool_decide (v = VNone) || instance_of t v
  end.

(** A request body that passed validation against [schema], given by the
    fields the client set: known fields of the right type, no key twice,
    and every required field present. *)
Definition validated (schema : PydanticModel) (item : dict Value) : bool :=
  forallb (fun kv =>
             match dict_get (model_fields schema) kv.1 with
             | Some (a, _) => value_matches a kv.2
             | None => false
             end) item
  && bool_decide (NoDup (keys item))
  && forallb (fun f =>
                match f.2.2 with
                | Ellipsis => bool_decide (f.1 ∈ keys item)
                | DefaultValue _ => true
                end) (model_fields schema).

(** [item.model_dump(exclude_unset=True)] *)
Definition model_dump_exclude_unset (item : dict Value) : dict Value := item.

Inductive Json : Type :=
| JDict (d : dict Value)
| JList (l : list (dict Value)).

Inductive Method : Type := POST | GET | PUT | DELETE.

Inductive ResponseModel : Type := rm_dict | rm_List_dict.

(** The endpoint functions, by signature.  [new_id] of a create request is
    the key the database generates while serving it; [skip] and [limit]
    are [None] when the query string does not give them. *)
Inductive Endpoint : Type :=
| ItemBody (schema : PydanticModel)
    (f : DB -> Z -> dict Value -> DB * Result Json)
| ItemId (f : DB -> Z -> DB * Result Json)
| Page (f : DB -> option Z -> option Z -> Result Json)
| ItemIdBody (schema : PydanticModel)
    (f : DB -> Z -> dict Value -> DB * Result Json).

Record Route : Type := mkRoute {
  method : Method;
  path : string;
  response_model : option ResponseModel;
  tags : list string;
  endpoint : Endpoint
}.

End Web.
Import Web.

(** ** [models/base.py], [models/product.py], [models/offer.py] *)

(** [BaseModel] calls [datetime.now()] three times while the class body is
    evaluated; the three results are fixed for the life of the process. *)
Record ImportTime : Type := mkImportTime {
  created_at_default : Z;
  updated_at_default : Z;
  updated_at_onupdate : Z
}.

Section Generator.

Variable now : ImportTime.

(** The members of [LabelEnum] ([models/enums/LabelEnum.py]). *)
Variable LabelEnum : list string.

Definition BaseModel_columns : list Column :=
  [ mkColumn "id" Integer true false None None None;
    mkColumn "created_at" DateTime false false
      (Some (ScalarDefault (VDateTime (created_at_default now)))) None None;
    mkColumn "updated_at" DateTime false false
      (Some (ScalarDefault (VDateTime (updated_at_default now))))
      (Some (VDateTime (updated_at_onupdate now))) None;
    mkColumn "is_active" Boolean false false
      (Some (ScalarDefault (VBool true))) None None ].

(** Attributes every model has besides its columns. *)
Definition BaseModel_attrs : list string :=
  [ "to_dict"; "soft_delete"; "metadata"; "registry";
    "__tablename__"; "__table__"; "__mapper__"; "__abstract__" ].

(** [cls.__table__.columns] *)
Definition columns (cls : ModelClass) : list Column :=
  BaseModel_columns ++ own_columns cls.

Definition __tablename__ (cls : ModelClass) : string :=
  lower (__name__ cls) ++ "s".

Definition is_column (cls : ModelClass) (key : string) : bool :=
  bool_decide (key ∈ name <$> columns cls).

Definition hasattr (cls : ModelClass) (key : string) : bool :=
  is_column cls key
  || bool_decide (key ∈ BaseModel_attrs)
  || bool_decide (key ∈ other_attrs cls).

(** Assigning a mapped attribute changes the pending row; any other
    attribute lives on the Python object only. *)
Definition setattr (cls : ModelClass) (self : Row) (key : string) (value : Value)
  : Row :=
  if is_column cls key then <[key := value]> self else self.

Definition to_dict (cls : ModelClass) (self : Row) : dict Value :=
  map (fun column => (name column, getattr self (name column))) (columns cls).

Definition soft_delete (self : Row) : Row :=
  <["is_active" := VBool false]> self.

Definition Product : ModelClass :=
  mkModel "Product"
    [ mkColumn "external_id" Integer false false None None None;
      mkColumn "name" (String_ 100) false false None None None;
      mkColumn "label" (Enum "LabelEnum" LabelEnum) false false None None None;
      mkColumn "description" (String_ 100) false false None None None ]
    [ "offers" ].

Definition Offer : ModelClass :=
  mkModel "Offer"
    [ mkColumn "product_id" Integer false false None None
        (Some ("products", "id"));
      mkColumn "reference_year" Integer false false None None None;
      mkColumn "reference_month" Integer false false None None None;
      mkColumn "value" Integer false false None None None ]
    [ "product" ].

(** ** [app/crud_generator.py] *)

Definition create_pydantic_model (sqlalchemy_model : ModelClass)
    (exclude_fields : option (list string)) : PydanticModel :=
  let exclude_fields := option.default [] exclude_fields in
  let fields :=
    foldl (fun fields column =>
             if bool_decide (name column ∈ exclude_fields) then fields
             else
               let python_type :=
                 option.default py_str (python_type (type_ column)) in
               if nullable column && negb (bool_decide (name column = "id"))
               then dict_set fields (name column)
                      (Optional python_type, DefaultValue VNone)
               else
                 match default column with
                 | Some (ScalarDefault arg) =>
                     dict_set fields (name column)
                       (Plain python_type, DefaultValue arg)
                 | Some (Sequence _) =>
                     dict_set fields (name column)
                       (Plain python_type, DefaultValue VNone)
                 | None =>
                     if bool_decide (name column = "id") then fields
                     else dict_set fields (name column)
                            (Plain python_type, Ellipsis)
                 end)
          [] (columns sqlalchemy_model)
  in
  create_model (__name__ sqlalchemy_model ++ "Model") fields.

Section CrudOperations.

Variable model_class : ModelClass.

(** The call of [model_class] with [item_data] as keyword arguments: the
    declarative constructor refuses a key that is not an attribute of the
    class. *)
Definition construct (item_data : dict Value) : Result Row :=
  foldl (fun acc kv =>
           match acc with
           | Return self =>
               if hasattr model_class kv.1
               then Return (setattr model_class self kv.1 kv.2)
               else Raise (TypeError kv.1)
           | Raise e => Raise e
           end) (Return ∅) item_data.

Definition create_item (db : DB) (new_id : Z) (item_data : dict Value)
  : DB * Result Row :=
  match construct item_data with
  | Raise e => (db, Raise e)
  | Return attrs =>
      let db_item := insert_row (columns model_class) new_id attrs in
      match flush_insert (columns model_class) (__tablename__ model_class)
              db db_item with
      | Return db' =>
          (db', Return (refresh (__tablename__ model_class) db' db_item))
      | Raise (IntegrityError orig) =>
          (db, Raise (HTTPException HTTP_400_BAD_REQUEST (DetailIntegrity orig)))
      | Raise e => (db, Raise e)
      end
  end.

(** [db.query(model_class).filter(model_class.id == item_id,
    model_class.is_active)] *)
Definition query_active_id (db : DB) (item_id : Z) : Table :=
  filter (fun r => id_is item_id r && is_active r)
    (table db (__tablename__ model_class)).

Definition get_item (db : DB) (item_id : Z) : option Row :=
  first (query_active_id db item_id).

Definition get_items (db : DB) (skip limit : option Z) : Result Table :=
  let skip := option.default 0 skip in
  let limit := option.default 100 limit in
  offset_limit_all skip limit
    (filter (fun r => is_active r) (table db (__tablename__ model_class))).

Definition update_item (db : DB) (item_id : Z) (item_data : dict Value)
  : DB * Result (option Row) :=
  match first (query_active_id db item_id) with
  | None => (db, Return None)
  | Some db_item =>
      let updated :=
        foldl (fun self kv =>
                 if hasattr model_class kv.1
                    && negb (bool_decide (kv.1 = "id"))
                 then setattr model_class self kv.1 kv.2
                 else self) db_item item_data in
      match flush_update (columns model_class) (__tablename__ model_class)
              db db_item updated with
      | Return db' =>
          (db', Return (Some (refresh (__tablename__ model_class) db' updated)))
      | Raise (IntegrityError orig) =>
          (db, Raise (HTTPException HTTP_400_BAD_REQUEST (DetailIntegrity orig)))
      | Raise e => (db, Raise e)
      end
  end.

Definition delete_item (db : DB) (item_id : Z) : DB * Result bool :=
  match first (query_active_id db item_id) with
  | None => (db, Return false)
  | Some db_item =>
      match flush_update (columns model_class) (__tablename__ model_class)
              db db_item (soft_delete db_item) with
      | Return db' => (db', Return true)
      | Raise e => (db, Raise e)
      end
  end.

End CrudOperations.

Record CrudOperations : Type := mkCrud {
  crud_create : DB -> Z -> dict Value -> DB * Result Row;
  crud_get : DB -> Z -> option Row;
  crud_get_all : DB -> option Z -> option Z -> Result Table;
  crud_update : DB -> Z -> dict Value -> DB * Result (option Row);
  crud_delete : DB -> Z -> DB * Result bool
}.

Definition create_crud_operations (model_class : ModelClass) : CrudOperations :=
  {| crud_create := create_item model_class;
     crud_get := get_item model_class;
     crud_get_all := get_items model_class;
     crud_update := update_item model_class;
     crud_delete := delete_item model_class |}.

Definition not_found (model_cls : ModelClass) : Exception :=
  HTTPException HTTP_404_NOT_FOUND
    (DetailText (__name__ model_cls ++ " not found")).

Definition make_create_endpoint (model_cls : ModelClass)
    (crud_operations : CrudOperations)
    (db : DB) (new_id : Z) (item : dict Value) : DB * Result Json :=
  let item_data := model_dump_exclude_unset item in
  match crud_create crud_operations db new_id item_data with
  | (db', Return db_item) => (db', Return (JDict (to_dict model_cls db_item)))
  | (db', Raise e) => (db', Raise e)
  end.

Definition make_get_endpoint (model_cls : ModelClass)
    (crud_operations : CrudOperations)
    (db : DB) (item_id : Z) : DB * Result Json :=
  match crud_get crud_operations db item_id with
  | None => (db, Raise (not_found model_cls))
  | Some db_item => (db, Return (JDict (to_dict model_cls db_item)))
  end.

Definition make_get_all_endpoint (model_cls : ModelClass)
    (crud_operations : CrudOperations)
    (db : DB) (skip limit : option Z) : Result Json :=
  let skip := option.default 0 skip in
  let limit := option.default 100 limit in
  match crud_get_all crud_operations db (Some skip) (Some limit) with
  | Return db_items => Return (JList (to_dict model_cls <$> db_items))
  | Raise e => Raise e
  end.

Definition make_update_endpoint (model_cls : ModelClass)
    (crud_operations : CrudOperations)
    (db : DB) (item_id : Z) (item : dict Value) : DB * Result Json :=
  let item_data := model_dump_exclude_unset item in
  match crud_update crud_operations db item_id item_data with
  | (db', Return None) => (db', Raise (not_found model_cls))
  | (db', Return (Some db_item)) =>
      (db', Return (JDict (to_dict model_cls db_item)))
  | (db', Raise e) => (db', Raise e)
  end.

Definition make_delete_endpoint (model_cls : ModelClass)
    (crud_operations : CrudOperations)
    (db : DB) (item_id : Z) : DB * Result Json :=
  match crud_delete crud_operations db item_id with
  | (db', Return false) => (db', Raise (not_found model_cls))
  | (db', Return true) =>
      (db', Return (JDict [("message",
                            VStr (__name__ model_cls ++ " deleted successfully"))]))
  | (db', Raise e) => (db', Raise e)
  end.

Definition request_exclude : list string :=
  ["id"; "created_at"; "updated_at"; "is_active"].

(** [app.post(path, ...)(endpoint)] and its siblings add one route. *)
Definition register (app : list Route) (m : Method) (path : string)
    (response_model : option ResponseModel) (tags : list string)
    (endpoint : Endpoint) : list Route :=
  (app ++ [mkRoute m path response_model tags endpoint])%list.

Definition generate_crud_routes (app : list Route)
    (models : dict ModelClass) : list Route :=
  foldl (fun app m =>
           let model_name := m.1 in
           let model_class := m.2 in
           let create_model_schema :=
             create_pydantic_model model_class (Some request_exclude) in
           let update_model_schema :=
             create_pydantic_model model_class (Some request_exclude) in
           let _ := create_pydantic_model model_class None in
           let crud_ops := create_crud_operations model_class in
           let route_prefix := "/" ++ lower model_name in
           let app :=
             register app POST (route_prefix ++ "/") (Some rm_dict)
               [model_name]
               (ItemBody create_model_schema
                  (make_create_endpoint model_class crud_ops)) in
           let app :=
             register app GET (route_prefix ++ "/{item_id}") (Some rm_dict)
               [model_name]
               (ItemId (make_get_endpoint model_class crud_ops)) in
           let app :=
             register app GET (route_prefix ++ "/") (Some rm_List_dict)
               [model_name]
               (Page (make_get_all_endpoint model_class crud_ops)) in
           let app :=
             register app PUT (route_prefix ++ "/{item_id}") (Some rm_dict)
               [model_name]
               (ItemIdBody update_model_schema
                  (make_update_endpoint model_class crud_ops)) in
           register app DELETE (route_prefix ++ "/{item_id}") None
             [model_name]
             (ItemId (make_delete_endpoint model_class crud_ops)))
        app models.

End Generator.

(** ** Well-formedness of tables and classes *)

(** The primary-key cells of a table, in scan order. *)
Definition ids (rows : Table) : list (option Value) :=
  (fun r => r !! "id") <$> rows.

(** The PRIMARY KEY constraint of the table of [cls]: no key twice. *)
Definition primary_key_holds (db : DB) (cls : ModelClass) : Prop :=
  NoDup (ids (table db (__tablename__ cls))).

(** A table has one column per name. *)
Definition distinct_columns (now : ImportTime) (cls : ModelClass) : Prop :=
  NoDup (name <$> columns now cls).


(** The two [BaseModel] columns a soft delete writes. *)
Definition is_active_column : Column :=
  mkColumn "is_active" Boolean false false (Some (ScalarDefault (VBool true)))
    None None.

Definition updated_at_column (now : ImportTime) : Column :=
  mkColumn "updated_at" DateTime false false
    (Some (ScalarDefault (VDateTime (updated_at_default now))))
    (Some (VDateTime (updated_at_onupdate now))) None.

(** Reading of the frame claim on delete: a successful delete of [item_id]
    changes, in the row it acts on, the cell [is_active] and nothing else. *)
Definition delete_changes_only_is_active (now : ImportTime)
    (cls : ModelClass) (db : DB) (item_id : Z) : Prop :=
  forall db' i r,
    delete_item now cls db item_id = (db', Return true) ->
    table db (__tablename__ cls) !! i = Some r ->
    r !! "id" = Some (VInt item_id) ->
    exists r',
      table db' (__tablename__ cls) !! i = Some r'
      /\ r' !! "is_active" = Some (VBool false)
      /\ forall k, k <> "is_active" -> r' !! k = r !! k.

(** The object [update_item] holds after its loop over [item_data]. *)
Definition update_loop (now : ImportTime) (cls : ModelClass)
    (db_item : Row) (item_data : dict Value) : Row :=
  foldl (fun self kv =>
           if hasattr now cls kv.1 && negb (bool_decide (kv.1 = "id"))
           then setattr now cls self kv.1 kv.2
           else self) db_item item_data.


Definition id_column : Column :=
  mkColumn "id" Integer true false None None None.

(** The schema field the deriver gives to a column that is not [id]. *)
Definition field_of (column : Column) : Annotation * FieldDefault :=
  let t := option.default py_str (python_type (type_ column)) in
  if nullable column then (Optional t, DefaultValue VNone)
  else
    match default column with
    | None => (Plain t, Ellipsis)
    | Some (ScalarDefault arg) => (Plain t, DefaultValue arg)
    | Some (Sequence _) => (Plain t, DefaultValue VNone)
    end.

(** The body of the loop of [create_pydantic_model]. *)
Definition schema_step (exclude : list string)
    (fields : dict (Annotation * FieldDefault)) (column : Column)
  : dict (Annotation * FieldDefault) :=
  if bool_decide (name column ∈ exclude) then fields
  else
    let python_type := option.default py_str (python_type (type_ column)) in
    if nullable column && negb (bool_decide (name column = "id"))
    then dict_set fields (name column) (Optional python_type, DefaultValue VNone)
    else
      match default column with
      | Some (ScalarDefault arg) =>
          dict_set fields (name column) (Plain python_type, DefaultValue arg)
      | Some (Sequence _) =>
          dict_set fields (name column) (Plain python_type, DefaultValue VNone)
      | None =>
          if bool_decide (name column = "id") then fields
          else dict_set fields (name column) (Plain python_type, Ellipsis)
      end.

(** ** A small database to run the operations on *)

Module Sample.

Definition now : ImportTime := mkImportTime 1000 1001 1002.

Definition LabelEnum : list string := ["NEW"; "USED"].

Definition Product : ModelClass := Product LabelEnum.

Definition pen : Row :=
  list_to_map
    [ ("id", VInt 1); ("created_at", VDateTime 10); ("updated_at", VDateTime 11);
      ("is_active", VBool true); ("external_id", VInt 7); ("name", VStr "pen");
      ("label", VEnum "NEW"); ("description", VStr "blue") ].

(** A product that was soft-deleted earlier. *)
Definition ink : Row :=
  list_to_map
    [ ("id", VInt 2); ("created_at", VDateTime 20); ("updated_at", VDateTime 21);
      ("is_active", VBool false); ("external_id", VInt 8); ("name", VStr "ink");
      ("label", VEnum "USED"); ("description", VStr "black") ].

Definition pen_offer : Row :=
  list_to_map
    [ ("id", VInt 1); ("created_at", VDateTime 30); ("updated_at", VDateTime 31);
      ("is_active", VBool true); ("product_id", VInt 1);
      ("reference_year", VInt 2024); ("reference_month", VInt 5);
      ("value", VInt 250) ].

Definition db : DB :=
  <["products" := [pen; ink]]> (<["offers" := [pen_offer]]> ∅).

(** A well-formed PUT body for an offer that points to a product that does
    not exist. *)
Definition dangling_offer : dict Value :=
  [ ("product_id", VInt 9); ("reference_year", VInt 2024);
    ("reference_month", VInt 6); ("value", VInt 300) ].

Definition new_product : dict Value :=
  [ ("external_id", VInt 9); ("name", VStr "cap"); ("label", VEnum "NEW");
    ("description", VStr "red") ].

End Sample.

(** ** Sequences of operations *)







(** The body of the loop of the declarative constructor. *)
Definition construct_step (now : ImportTime) (cls : ModelClass)
    (acc : Result Row) (kv : string * Value) : Result Row :=
  match acc with
  | Return self =>
      if hasattr now cls kv.1
      then Return (setattr now cls self kv.1 kv.2)
      else Raise (TypeError kv.1)
  | Raise e => Raise e
  end.

(** How a failed create can end: a refused key, a data error of the
    database, or HTTP 400; an [IntegrityError] never leaves the function. *)
Definition create_failure (e : Exception) : Prop :=
  match e with
  | HTTPException code (DetailIntegrity _) => code = HTTP_400_BAD_REQUEST
  | HTTPException _ (DetailText _) => False
  | TypeError _ => True
  | DataError _ => True
  | IntegrityError _ => False
  end.

(** ** [app/model_discovery.py] *)

Module Discovery.

(** A class as [inspect.getmembers(module, inspect.isclass)] meets it. *)
Inductive ClassObject : Type :=
| BaseModel_itself
| Subclass (cls : ModelClass)
| Unrelated (class_name : string) (has_tablename : bool).

Definition issubclass_BaseModel (obj : ClassObject) : bool :=
  match obj with
  | Unrelated _ _ => false
  | _ => true
  end.

Definition is_not_BaseModel (obj : ClassObject) : bool :=
  match obj with
  | BaseModel_itself => false
  | _ => true
  end.

(** [hasattr(obj, '__tablename__')]; [BaseModel] declares the attribute
    for itself and its subclasses. *)
Definition hasattr_tablename (obj : ClassObject) : bool :=
  match obj with
  | Unrelated _ b => b
  | _ => true
  end.

(** [importlib.import_module]: the classes of the module by name, or an
    [ImportError]. *)
Inductive Imported : Type :=
| Module_ (members : list (string * ClassObject))
| ImportError.

(** What the process sees of the file system and of the import machinery. *)
Record Environment : Type := mkEnvironment {
  path_exists : bool;
  listdir : list string;
  import_module : string -> Imported
}.

Definition startswith (s prefix : string) : bool := String.prefix prefix s.

Definition endswith (s suffix : string) : bool :=
  String.eqb
    (String.substring (String.length s - String.length suffix)
       (String.length suffix) s)
    suffix.

(** [filename[:-3]] *)
Definition without_last3 (filename : string) : string :=
  String.substring 0 (String.length filename - 3) filename.

Definition discover_and_register_models (models_dir : string)
    (env : Environment) : dict ModelClass :=
  let models := [] in
  if negb (path_exists env) then models
  else
    foldl (fun models filename =>
             if endswith filename ".py" && negb (startswith filename "__")
             then
               let module_name := without_last3 filename in
               match import_module env (models_dir ++ "." ++ module_name) with
               | Module_ members =>
                   foldl (fun models m =>
                            let name := m.1 in
                            let obj := m.2 in
                            if issubclass_BaseModel obj
                               && is_not_BaseModel obj
                               && hasattr_tablename obj
                            then
                              match obj with
                              | Subclass cls => dict_set models name cls
                              | _ => models
                              end
                            else models) models members
               | ImportError => models
               end
             else models) models (listdir env).

(** The loop over the members of one module, and over one file. *)
Definition register_members (models : dict ModelClass)
    (members : list (string * ClassObject)) : dict ModelClass :=
  foldl (fun models m =>
           if issubclass_BaseModel m.2 && is_not_BaseModel m.2
              && hasattr_tablename m.2
           then
             match m.2 with
             | Subclass cls => dict_set models m.1 cls
             | _ => models
             end
           else models) models members.


Definition is_model_file (filename : string) : bool :=
  endswith filename ".py" && negb (startswith filename "__").

Definition scan_file (models_dir : string) (env : Environment)
    (models : dict ModelClass) (filename : string) : dict ModelClass :=
  if is_model_file filename
  then
    match import_module env (models_dir ++ "." ++ without_last3 filename) with
    | Module_ members => register_members models members
    | ImportError => models
    end
  else models.

End Discovery.

(** A models directory like the one of the repository, with one module
    that does not import. *)
Module SampleFiles.

Import Discovery.

Definition modules (module : string) : Imported :=
  if bool_decide (module = "models.base") then
    Module_ [("BaseModel", BaseModel_itself)]
  else if bool_decide (module = "models.product") then
    Module_ [("BaseModel", BaseModel_itself);
             ("LabelEnum", Unrelated "LabelEnum" false);
             ("Product", Subclass Sample.Product)]
  else if bool_decide (module = "models.offer") then
    Module_ [("BaseModel", BaseModel_itself);
             ("Offer", Subclass Offer);
             ("Product", Subclass Sample.Product)]
  else ImportError.

Definition env : Environment :=
  mkEnvironment true
    ["__init__.py"; "base.py"; "broken.py"; "offer.py"; "product.py";
     "README.md"; "enums"]
    modules.

End SampleFiles.


(** ** Properties of the ORM layer *)

Section OrmFacts.

Implicit Types (db : DB) (rows : Table) (r obj : Row).

Lemma table_insert db tn tn' rows :
  table (<[tn := rows]> db) tn' = if decide (tn = tn') then rows else table db tn'.
Proof.
  unfold table. rewrite lookup_insert. by destruct (decide (tn = tn')).
Qed.

Lemma first_filter_elem (P : Row -> bool) rows r :
  first (filter (fun x => P x) rows) = Some r -> r ∈ rows /\ P r = true.
Proof.
  intros H. apply head_Some_elem_of in H.
  apply list_elem_of_filter in H as [HP Hin].
  split; [done | by apply Is_true_true].
Qed.

Lemma first_filter_None (P : Row -> bool) rows r :
  first (filter (fun x => P x) rows) = None -> r ∈ rows -> P r = false.
Proof.
  intros H Hin. apply head_None in H.
  destruct (P r) eqn:E; [| done].
  exfalso. eapply filter_nil_not_elem_of; [exact H | | exact Hin].
  simpl. by rewrite E.
Qed.

Lemma sql_update_lookup sets obj rows i :
  sql_update sets obj rows !! i
  = (fun r => if same_identity obj r then apply_set sets r else r) <$> rows !! i.
Proof. unfold sql_update. apply list_lookup_fmap. Qed.

Lemma sql_update_length sets obj rows :
  length (sql_update sets obj rows) = length rows.
Proof. unfold sql_update. apply length_map. Qed.

(** What a flush of an UPDATE can leave behind. *)
Lemma flush_update_Return cols tn db old new db' :
  flush_update cols tn db old new = Return db' ->
  (set_clause cols old new = [] /\ db' = db)
  \/ (set_clause cols old new <> []
      /\ db' = <[tn := sql_update (set_clause cols old new) old (table db tn)]> db).
Proof.
  unfold flush_update. destruct (set_clause cols old new) as [|s sets] eqn:E.
  - intros [= <-]. by left.
  - destruct check_statement; [done |]. intros [= <-]. by right.
Qed.

(** Rows with another key are out of reach of the UPDATE. *)
Lemma flush_update_frame cols tn db old new db' tn' i r :
  flush_update cols tn db old new = Return db' ->
  table db tn' !! i = Some r ->
  (tn' = tn -> r !! "id" <> old !! "id") ->
  table db' tn' !! i = Some r.
Proof.
  intros Hf Hr Hne.
  apply flush_update_Return in Hf as [[_ ->] | [_ ->]]; [done |].
  rewrite table_insert. destruct (decide (tn = tn')) as [<- |]; [| done].
  rewrite sql_update_lookup, Hr. simpl.
  unfold same_identity. rewrite bool_decide_eq_false_2; [done | by apply Hne].
Qed.

Lemma NoDup_ids_eq rows i j r r' :
  NoDup (ids rows) ->
  rows !! i = Some r -> rows !! j = Some r' -> r !! "id" = r' !! "id" -> i = j.
Proof.
  intros Hnd Hi Hj Heq.
  eapply NoDup_lookup; [exact Hnd | |].
  - unfold ids. rewrite list_lookup_fmap, Hi. reflexivity.
  - unfold ids. rewrite list_lookup_fmap, Hj. simpl. by rewrite Heq.
Qed.

Lemma NoDup_fmap_elem_inj {A B} (f : A -> B) (l : list A) x y :
  NoDup (f <$> l) -> x ∈ l -> y ∈ l -> f x = f y -> x = y.
Proof.
  intros Hnd [i Hi]%list_elem_of_lookup [j Hj]%list_elem_of_lookup Heq.
  assert (i = j) as ->.
  { eapply NoDup_lookup; [exact Hnd | |].
    - rewrite list_lookup_fmap, Hi. reflexivity.
    - rewrite list_lookup_fmap, Hj. simpl. by rewrite Heq. }
  congruence.
Qed.

(** A statement fails with a data error or with an integrity error. *)
Lemma check_statement_Some all_cols cols others db' r e :
  check_statement all_cols cols others db' r = Some e ->
  (exists c, e = DataError c) \/ (exists orig, e = IntegrityError orig).
Proof.
  unfold check_statement.
  destruct check_types; [intros [= <-]; eauto |].
  destruct check_not_null; [intros [= <-]; eauto |].
  destruct check_unique; [intros [= <-]; eauto |].
  destruct check_foreign_keys; [intros [= <-]; eauto | done].
Qed.


Lemma flush_insert_Raise cols tn db r e :
  flush_insert cols tn db r = Raise e ->
  (exists c, e = DataError c) \/ (exists orig, e = IntegrityError orig).
Proof.
  unfold flush_insert. destruct check_statement eqn:E; [| done].
  intros [= <-]. by eapply check_statement_Some.
Qed.

(** An INSERT that went through found no row with the key of the new one,
    for every primary-key column. *)
Lemma flush_insert_Return cols tn db r db' :
  flush_insert cols tn db r = Return db' ->
  db' = <[tn := (table db tn ++ [r])%list]> db
  /\ forall c r', c ∈ cols -> primary_key c = true -> r' ∈ table db tn ->
       getattr r' (name c) <> getattr r (name c).
Proof.
  unfold flush_insert. destruct check_statement eqn:E; [done |].
  intros [= <-]. split; [done |].
  unfold check_statement in E.
  destruct check_types; [done |]. destruct check_not_null; [done |].
  destruct check_unique eqn:Hu; [done |]. clear E.
  intros c r' Hc Hpk Hr' Heq. unfold check_unique in Hu.
  pose proof (find_none _ _ Hu c) as Hfalse. simpl in Hfalse.
  rewrite Hpk in Hfalse. specialize (Hfalse ltac:(by apply list_elem_of_In)). simpl in Hfalse.
  assert (existsb (fun r'0 => bool_decide
            (getattr r'0 (name c) = getattr r (name c))) (table db tn) = true)
    as Hex; [| congruence].
  apply existsb_exists. exists r'. split; [by apply list_elem_of_In |].
  by apply bool_decide_eq_true_2.
Qed.

End OrmFacts.


(** *** The SET clause of an UPDATE *)

Section SetClause.

Implicit Types (cols : list Column) (old new r : Row)
  (sets : list (Column * Value)).

Lemma apply_set_cons c v sets r :
  apply_set ((c, v) :: sets) r = apply_set sets (<[name c := v]> r).
Proof. reflexivity. Qed.

Lemma apply_set_other sets r k :
  k ∉ name <$> sets.*1 -> apply_set sets r !! k = r !! k.
Proof.
  revert r. induction sets as [|[c v] sets IH]; intros r Hk; [done |].
  rewrite apply_set_cons, IH.
  - apply lookup_insert_ne. intros Heq. apply Hk. simpl. rewrite Heq. left.
  - intros Hin. apply Hk. simpl. by right.
Qed.

Lemma apply_set_written sets r c v :
  NoDup (name <$> sets.*1) -> (c, v) ∈ sets ->
  apply_set sets r !! name c = Some v.
Proof.
  revert r. induction sets as [|[c0 v0] sets IH]; intros r Hnd Hin.
  - by apply elem_of_nil in Hin.
  - simpl in Hnd. apply NoDup_cons in Hnd as [Hfresh Hnd].
    rewrite apply_set_cons. apply elem_of_cons in Hin as [[= -> ->] | Hin].
    + rewrite apply_set_other by done. apply lookup_insert_eq.
    + by apply IH.
Qed.

(** The same value written under every occurrence of a name survives
    whatever the order of the assignments. *)
Lemma apply_set_constant sets r k v :
  k ∈ name <$> sets.*1 ->
  (forall c w, (c, w) ∈ sets -> name c = k -> w = v) ->
  apply_set sets r !! k = Some v.
Proof.
  revert r. induction sets as [|[c0 v0] sets IH]; intros r Hin Hall.
  - by apply elem_of_nil in Hin.
  - rewrite apply_set_cons.
    destruct (decide (k ∈ name <$> sets.*1)) as [Hk | Hk].
    + apply IH; [done |]. intros c w Hcw. apply Hall. by right.
    + rewrite apply_set_other by done.
      simpl in Hin. apply elem_of_cons in Hin as [-> | Hin]; [| done].
      rewrite (Hall c0 v0); [apply lookup_insert_eq | left | done].
Qed.

Lemma forallb_false_elem {A} (f : A -> bool) (l : list A) :
  forallb f l = false -> exists x, x ∈ l /\ f x = false.
Proof.
  induction l as [|a l IH]; simpl; [done |].
  destruct (f a) eqn:E; simpl.
  - intros H. destruct (IH H) as (x & Hx & Hfx). exists x. split; [by right | done].
  - intros _. exists a. split; [left | done].
Qed.

Lemma set_clause_elem cols old new c v :
  (c, v) ∈ set_clause cols old new <->
  (exists c0, c0 ∈ cols /\ changed old new c0 = true)
  /\ c ∈ cols
  /\ (if changed old new c then v = getattr new (name c)
      else onupdate c = Some v).
Proof.
  unfold set_clause.
  destruct (forallb (fun c => negb (changed old new c)) cols) eqn:E.
  - split; [intros H; by apply elem_of_nil in H |].
    intros [(c0 & Hin & Hch) _]. exfalso.
    apply Is_true_true, forallb_True in E.
    rewrite Forall_forall in E. specialize (E c0 Hin).
    rewrite Hch in E. done.
  - rewrite list_elem_of_omap. split.
    + intros (c' & Hin & Hf). split.
      * apply forallb_false_elem in E as (c0 & Hc0 & Hn).
        exists c0. split; [done |]. by apply negb_false_iff.
      * destruct (changed old new c') eqn:Hc'.
        -- injection Hf as <- <-. by rewrite Hc'.
        -- destruct (onupdate c') as [w|] eqn:Ho; [| done].
           injection Hf as <- <-. by rewrite Hc'.
    + intros (_ & Hin & Hv). exists c. split; [done |].
      destruct (changed old new c); [by subst |]. by rewrite Hv.
Qed.

Lemma set_clause_names cols old new :
  NoDup (name <$> cols) -> NoDup (name <$> (set_clause cols old new).*1).
Proof.
  intros Hnd. unfold set_clause.
  destruct (forallb _ cols); [constructor |].
  induction cols as [|c cols IH]; [constructor |].
  simpl in Hnd. apply NoDup_cons in Hnd as [Hfresh Hnd]. simpl.
  assert (forall k, k ∈ name <$>
            (omap (fun c => if changed old new c
                            then Some (c, getattr new (name c))
                            else (fun v => (c, v)) <$> onupdate c) cols).*1 ->
          k ∈ name <$> cols) as Hsub.
  { intros k Hk. apply list_elem_of_fmap in Hk as (c' & -> & Hc').
    apply list_elem_of_fmap in Hc' as ([c'' w] & -> & Hcw).
    apply list_elem_of_omap in Hcw as (c3 & Hc3 & Hf). simpl.
    destruct (changed old new c3).
    - injection Hf as <- <-. by apply list_elem_of_fmap_2.
    - destruct (onupdate c3); [| done]. injection Hf as <- <-.
      by apply list_elem_of_fmap_2. }
  destruct (changed old new c).
  - simpl. apply NoDup_cons. split; [| by apply IH].
    intros Hk. by apply Hfresh, Hsub.
  - destruct (onupdate c); simpl; [| by apply IH].
    apply NoDup_cons. split; [| by apply IH].
    intros Hk. by apply Hfresh, Hsub.
Qed.

End SetClause.

(** *** Reloading an object *)

Section Refresh.

Implicit Types (db : DB) (rows : Table) (r obj : Row).

Lemma filter_none (P : Row -> bool) rows :
  (forall r, r ∈ rows -> P r = false) -> filter (fun x => P x) rows = [].
Proof.
  induction rows as [|r rows IH]; intros H; [done |].
  rewrite filter_cons_False.
  - apply IH. intros r' Hr'. apply H. by right.
  - rewrite (H r) by left. by intros ?.
Qed.

Lemma refresh_found tn db obj r0 :
  r0 ∈ table db tn -> r0 !! "id" = obj !! "id" ->
  refresh tn db obj ∈ table db tn
  /\ refresh tn db obj !! "id" = obj !! "id".
Proof.
  intros Hin Hid. unfold refresh.
  destruct (first (filter (same_identity obj) (table db tn))) as [r|] eqn:E.
  - simpl. apply (first_filter_elem (same_identity obj)) in E as [Hr Hs].
    split; [done |]. unfold same_identity in Hs.
    by apply bool_decide_eq_true in Hs.
  - exfalso.
    apply (first_filter_None (same_identity obj) _ r0) in E; [| done].
    unfold same_identity in E. by apply bool_decide_eq_false in E.
Qed.

(** After an INSERT that passed the uniqueness check on [id], reloading the
    new object gives the inserted row itself. *)
Lemma refresh_inserted tn db obj :
  (forall r, r ∈ table db tn -> r !! "id" <> obj !! "id") ->
  refresh tn (<[tn := (table db tn ++ [obj])%list]> db) obj = obj.
Proof.
  intros Hfresh. unfold refresh. rewrite table_insert, decide_True by done.
  rewrite filter_app.
  replace (filter (same_identity obj) (table db tn)) with (@nil Row).
  - simpl. rewrite filter_cons_True; [done |].
    unfold same_identity. by rewrite bool_decide_eq_true_2.
  - symmetry. apply (filter_none (same_identity obj)). intros r Hr.
    unfold same_identity. apply bool_decide_eq_false_2. by apply Hfresh.
Qed.

End Refresh.

(** *** Dictionaries *)

Section DictFacts.

Context {V : Type}.
Implicit Types (d : dict V) (k : string) (v : V).

Lemma dict_set_fresh d k v : k ∉ keys d -> dict_set d k v = (d ++ [(k, v)])%list.
Proof.
  unfold keys. induction d as [|[k' v'] d IH]; intros Hk; [done |].
  simpl in *. apply not_elem_of_cons in Hk as [Hne Hk].
  rewrite bool_decide_eq_false_2 by done. by rewrite IH.
Qed.

Lemma dict_get_None d k : k ∉ keys d -> dict_get d k = None.
Proof.
  unfold keys. induction d as [|[k' v'] d IH]; intros Hk; [done |].
  simpl in *. apply not_elem_of_cons in Hk as [Hne Hk].
  rewrite bool_decide_eq_false_2 by done. by apply IH.
Qed.

Lemma dict_get_Some_key d k v : dict_get d k = Some v -> k ∈ keys d.
Proof.
  unfold keys. induction d as [|[k' v'] d IH]; [done |].
  simpl. case_bool_decide as Hk.
  - intros _. subst. left.
  - intros H. right. by apply IH.
Qed.

Lemma dict_get_elem d k v : NoDup (keys d) -> (k, v) ∈ d -> dict_get d k = Some v.
Proof.
  unfold keys. induction d as [|[k' v'] d IH]; intros Hnd Hin.
  - by apply elem_of_nil in Hin.
  - simpl in *. apply NoDup_cons in Hnd as [Hfresh Hnd].
    apply elem_of_cons in Hin as [[= -> ->] | Hin].
    + by rewrite bool_decide_eq_true_2.
    + rewrite bool_decide_eq_false_2; [by apply IH |].
      intros ->. apply Hfresh. by apply (list_elem_of_fmap_2 fst _ (k, v)).
Qed.

End DictFacts.
(** ** Properties of the generated operations *)

Section Properties.

Variable now : ImportTime.

Implicit Types (cls : ModelClass) (db : DB) (rows : Table) (r : Row).

Lemma query_active_id_elem cls db item_id r :
  first (query_active_id cls db item_id) = Some r ->
  r ∈ table db (__tablename__ cls)
  /\ r !! "id" = Some (VInt item_id) /\ is_active r = true.
Proof.
  intros H. apply first_filter_elem in H as [Hin HP].
  apply andb_true_iff in HP as [Hid Hact].
  split; [done |]. split; [| done].
  unfold id_is in Hid. by apply bool_decide_eq_true in Hid.
Qed.

(** An inactive row keeps its place and its content across any flush of an
    UPDATE whose object is an active row of the same table. *)
Lemma inactive_row_kept cls db item_id db_item new db' tn i r :
  primary_key_holds db cls ->
  first (query_active_id cls db item_id) = Some db_item ->
  flush_update (columns now cls) (__tablename__ cls) db db_item new = Return db' ->
  table db tn !! i = Some r -> is_active r = false ->
  table db' tn !! i = Some r.
Proof.
  intros Hpk Hq Hf Hr Hinact.
  apply query_active_id_elem in Hq as (Hin & _ & Hact).
  eapply flush_update_frame; [exact Hf | exact Hr |].
  intros -> Heq. apply list_elem_of_lookup in Hin as [j Hj].
  assert (i = j) as -> by (eapply NoDup_ids_eq; eauto).
  congruence.
Qed.

(** C1.  Reads return active rows only; under the primary-key constraint an
    update or a delete leaves every inactive row of every table exactly as
    it was; and when the requested id has no active row, update answers
    [None] and delete answers [False] without touching the database. *)
Theorem only_active_rows_are_visible cls db item_id :
  primary_key_holds db cls ->
  (forall r, get_item cls db item_id = Some r ->
     is_active r = true /\ r !! "id" = Some (VInt item_id))
  /\ (forall skip limit rows r,
        get_items cls db skip limit = Return rows -> r ∈ rows ->
        is_active r = true)
  /\ (forall item_data tn i r,
        table db tn !! i = Some r -> is_active r = false ->
        table (update_item now cls db item_id item_data).1 tn !! i = Some r)
  /\ (forall tn i r,
        table db tn !! i = Some r -> is_active r = false ->
        table (delete_item now cls db item_id).1 tn !! i = Some r)
  /\ (get_item cls db item_id = None ->
      (forall item_data,
         update_item now cls db item_id item_data = (db, Return None))
      /\ delete_item now cls db item_id = (db, Return false)).
Proof.
  intros Hpk. split; [| split; [| split; [| split]]].
  - intros r Hget. by apply query_active_id_elem in Hget as (_ & ? & ?).
  - intros skip limit rows r. unfold get_items, offset_limit_all.
    repeat case_bool_decide; try done. intros [= <-] Hin.
    apply subseteq_take, subseteq_drop in Hin.
    apply list_elem_of_filter in Hin as [Hact _]. by apply Is_true_true.
  - intros item_data tn i r Hr Hinact. unfold update_item.
    destruct (first (query_active_id cls db item_id)) as [db_item|] eqn:Hq;
      [| done].
    destruct flush_update as [db'|e] eqn:Hf.
    + simpl. eapply inactive_row_kept; eauto.
    + by destruct e.
  - intros tn i r Hr Hinact. unfold delete_item.
    destruct (first (query_active_id cls db item_id)) as [db_item|] eqn:Hq;
      [| done].
    destruct flush_update as [db'|e] eqn:Hf; [| done].
    simpl. eapply inactive_row_kept; eauto.
  - unfold get_item, update_item, delete_item. intros ->. done.
Qed.

(** *** Soft delete *)

Lemma is_active_column_elem cls : is_active_column ∈ columns now cls.
Proof. unfold columns. apply elem_of_app. left. set_solver. Qed.

Lemma updated_at_column_elem cls : updated_at_column now ∈ columns now cls.
Proof. unfold columns. apply elem_of_app. left. set_solver. Qed.

Lemma changed_soft_delete r c :
  is_active r = true ->
  changed r (soft_delete r) c = bool_decide (name c = "is_active").
Proof.
  intros Hact. unfold is_active in Hact. apply bool_decide_eq_true in Hact.
  unfold changed, soft_delete, getattr.
  destruct (decide (name c = "is_active")) as [-> | Hne].
  - by rewrite lookup_insert_eq, Hact.
  - rewrite lookup_insert_ne by done.
    rewrite (bool_decide_eq_false_2 (name c = _)) by done.
    apply bool_decide_eq_false_2. by intros H; apply H.
Qed.

(** The statement a soft delete sends: [is_active] and every column that
    carries an [onupdate] value. *)
Lemma soft_delete_set_elem cls r c v :
  is_active r = true ->
  (c, v) ∈ set_clause (columns now cls) r (soft_delete r) <->
  c ∈ columns now cls
  /\ (if bool_decide (name c = "is_active") then v = VBool false
      else onupdate c = Some v).
Proof.
  intros Hact. rewrite set_clause_elem, changed_soft_delete by done.
  split.
  - intros (_ & Hin & Hv). split; [done |].
    case_bool_decide as Hn; [| done]. subst v. unfold soft_delete, getattr.
    by rewrite Hn, lookup_insert_eq.
  - intros (Hin & Hv). split; [| split; [done |]].
    + exists is_active_column. split; [apply is_active_column_elem |].
      by rewrite changed_soft_delete.
    + case_bool_decide as Hn; [| done]. subst v. unfold soft_delete, getattr.
      by rewrite Hn, lookup_insert_eq.
Qed.

Lemma soft_delete_set_nonempty cls r :
  is_active r = true ->
  set_clause (columns now cls) r (soft_delete r) <> [].
Proof.
  intros Hact Hnil.
  assert ((is_active_column, VBool false)
          ∈ set_clause (columns now cls) r (soft_delete r)) as Hin.
  { apply soft_delete_set_elem; [done |].
    split; [apply is_active_column_elem | done]. }
  rewrite Hnil in Hin. by apply elem_of_nil in Hin.
Qed.

(** The row a successful delete acted on, and the state it left. *)
Lemma delete_item_Return_true cls db item_id db' :
  delete_item now cls db item_id = (db', Return true) ->
  exists db_item,
    first (query_active_id cls db item_id) = Some db_item
    /\ db' = <[__tablename__ cls :=
                 sql_update
                   (set_clause (columns now cls) db_item (soft_delete db_item))
                   db_item (table db (__tablename__ cls))]> db.
Proof.
  unfold delete_item.
  destruct (first (query_active_id cls db item_id)) as [db_item|] eqn:Hq;
    [| done].
  destruct flush_update as [db''|e] eqn:Hf; [| done].
  intros [= <-]. exists db_item. split; [done |].
  apply query_active_id_elem in Hq as (_ & _ & Hact).
  apply flush_update_Return in Hf as [[Hnil _] | [_ ->]]; [| done].
  by apply soft_delete_set_nonempty in Hnil.
Qed.

(** C2 (as amended).  A successful delete removes no row of any table.  In
    the row with the requested id it writes [is_active = False] and gives
    [updated_at] its [onupdate] value; every cell that is neither
    [is_active] nor a column declared with an [onupdate] value is as it
    was.  Every other row, of this and of every other table, is as it
    was. *)
Theorem delete_item_soft_delete_frame cls db item_id db' :
  primary_key_holds db cls ->
  distinct_columns now cls ->
  delete_item now cls db item_id = (db', Return true) ->
  (forall tn, length (table db' tn) = length (table db tn))
  /\ exists i r r',
       table db (__tablename__ cls) !! i = Some r
       /\ r !! "id" = Some (VInt item_id) /\ is_active r = true
       /\ table db' (__tablename__ cls) !! i = Some r'
       /\ r' !! "is_active" = Some (VBool false)
       /\ r' !! "updated_at" = Some (VDateTime (updated_at_onupdate now))
       /\ (forall k, k <> "is_active" ->
             (forall c, c ∈ columns now cls -> name c = k -> onupdate c = None) ->
             r' !! k = r !! k)
       /\ (forall tn j r2,
             table db tn !! j = Some r2 ->
             (tn = __tablename__ cls -> j <> i) ->
             table db' tn !! j = Some r2).
Proof.
  intros Hpk Hnd Hdel.
  apply delete_item_Return_true in Hdel as (db_item & Hq & ->).
  pose proof Hq as (Hin & Hid & Hact)%query_active_id_elem.
  apply list_elem_of_lookup in Hin as [i Hi].
  set (sets := set_clause (columns now cls) db_item (soft_delete db_item)).
  assert (NoDup (name <$> sets.*1)) as Hsets by by apply set_clause_names.
  split.
  { intros tn. rewrite table_insert. case_decide as Htn; [| done].
    subst tn. apply sql_update_length. }
  exists i, db_item, (apply_set sets db_item).
  split; [done |]. split; [done |]. split; [done |]. split.
  { rewrite table_insert, decide_True by done.
    rewrite sql_update_lookup, Hi. simpl. unfold same_identity.
    by rewrite bool_decide_eq_true_2. }
  split.
  { apply (apply_set_written sets db_item is_active_column); [done |].
    apply soft_delete_set_elem; [done |].
    split; [apply is_active_column_elem | done]. }
  split.
  { apply (apply_set_written sets db_item (updated_at_column now)); [done |].
    apply soft_delete_set_elem; [done |].
    split; [apply updated_at_column_elem | done]. }
  split.
  { intros k Hk Hno. apply apply_set_other.
    intros Hkin. apply list_elem_of_fmap in Hkin as (c & -> & Hc).
    apply list_elem_of_fmap in Hc as ([c' v] & -> & Hcv). simpl in *.
    apply soft_delete_set_elem in Hcv as [Hc' Hv]; [| done].
    rewrite bool_decide_eq_false_2 in Hv by done.
    by rewrite (Hno c' Hc' eq_refl) in Hv. }
  intros tn j r2 Hj Hne. rewrite table_insert.
  case_decide as Htn; [| done]. subst tn.
  rewrite sql_update_lookup, Hj. simpl. unfold same_identity.
  rewrite bool_decide_eq_false_2; [done |].
  intros Heq. apply (Hne eq_refl). eapply NoDup_ids_eq; eauto.
Qed.

(** *** The endpoints and their status codes *)


(** *** Integrity errors, rollback and the committed row *)

Lemma id_column_elem cls : id_column ∈ columns now cls.
Proof. unfold columns. apply elem_of_app. left. set_solver. Qed.

Lemma setattr_other cls r key value k :
  k <> key -> setattr now cls r key value !! k = r !! k.
Proof.
  intros Hne. unfold setattr. destruct is_column; [| done].
  by apply lookup_insert_ne.
Qed.

Lemma update_loop_id cls db_item item_data :
  update_loop now cls db_item item_data !! "id" = db_item !! "id".
Proof.
  unfold update_loop. revert db_item.
  induction item_data as [|[key value] item_data IH]; intros db_item; [done |].
  simpl. rewrite IH. destruct (hasattr now cls key); [| done]. simpl.
  case_bool_decide as Hk; [done |]. simpl. by apply setattr_other.
Qed.

(** No UPDATE of an object that kept its key writes the [id] column. *)
Lemma set_clause_keeps_id cls old new c v :
  distinct_columns now cls -> new !! "id" = old !! "id" ->
  (c, v) ∈ set_clause (columns now cls) old new -> name c <> "id".
Proof.
  intros Hnd Hid Hin Hname.
  apply set_clause_elem in Hin as (_ & Hc & Hv).
  unfold changed in Hv. rewrite Hname in Hv. unfold getattr in Hv.
  rewrite Hid in Hv. rewrite bool_decide_eq_false_2 in Hv by (by intros H; apply H).
  assert (c = id_column) as ->; [| done].
  eapply NoDup_fmap_elem_inj; [exact Hnd | done | apply id_column_elem | done].
Qed.

Lemma apply_set_keeps_id cls old new r :
  distinct_columns now cls -> new !! "id" = old !! "id" ->
  apply_set (set_clause (columns now cls) old new) r !! "id" = r !! "id".
Proof.
  intros Hnd Hid. apply apply_set_other.
  intros Hin. apply list_elem_of_fmap in Hin as (c & Hname & Hc).
  apply list_elem_of_fmap in Hc as ([c' v] & -> & Hcv). simpl in *.
  by eapply set_clause_keeps_id.
Qed.

(** C4.  When the flush of a create or of an update reports an integrity
    violation, the operation raises HTTP 400 and the database is the one
    it started from.  Every failure leaves the database unchanged.  A
    successful create returns the row it appended to the table; a
    successful update returns a row of the committed table that carries
    the requested id. *)
Theorem integrity_violation_is_400_and_rolled_back cls db :
  distinct_columns now cls ->
  (forall new_id item_data attrs orig,
     construct now cls item_data = Return attrs ->
     flush_insert (columns now cls) (__tablename__ cls) db
       (insert_row (columns now cls) new_id attrs)
     = Raise (IntegrityError orig) ->
     create_item now cls db new_id item_data
     = (db, Raise (HTTPException HTTP_400_BAD_REQUEST (DetailIntegrity orig))))
  /\ (forall item_id item_data db_item orig,
        first (query_active_id cls db item_id) = Some db_item ->
        flush_update (columns now cls) (__tablename__ cls) db db_item
          (update_loop now cls db_item item_data)
        = Raise (IntegrityError orig) ->
        update_item now cls db item_id item_data
        = (db, Raise (HTTPException HTTP_400_BAD_REQUEST
                        (DetailIntegrity orig))))
  /\ (forall new_id item_data db' e,
        create_item now cls db new_id item_data = (db', Raise e) -> db' = db)
  /\ (forall item_id item_data db' e,
        update_item now cls db item_id item_data = (db', Raise e) -> db' = db)
  /\ (forall new_id item_data db' r,
        create_item now cls db new_id item_data = (db', Return r) ->
        table db' (__tablename__ cls) = (table db (__tablename__ cls) ++ [r])%list
        /\ forall tn, tn <> __tablename__ cls -> table db' tn = table db tn)
  /\ (forall item_id item_data db' r,
        update_item now cls db item_id item_data = (db', Return (Some r)) ->
        r ∈ table db' (__tablename__ cls) /\ r !! "id" = Some (VInt item_id)).
Proof.
  intros Hnd. split; [| split; [| split; [| split; [| split]]]].
  - intros new_id item_data attrs orig Hc Hf. unfold create_item.
    by rewrite Hc, Hf.
  - intros item_id item_data db_item orig Hq Hf. unfold update_item.
    rewrite Hq. fold (update_loop now cls db_item item_data). by rewrite Hf.
  - intros new_id item_data db' e. unfold create_item.
    destruct construct; [| by intros [= <- _]].
    destruct flush_insert as [?|e']; [done |].
    by destruct e'; intros [= <- _].
  - intros item_id item_data db' e. unfold update_item.
    destruct first; [| done].
    destruct flush_update as [?|e']; [done |].
    by destruct e'; intros [= <- _].
  - intros new_id item_data db' r. unfold create_item.
    destruct construct as [attrs|]; [| done].
    destruct flush_insert as [db''|e'] eqn:Hf; [| by destruct e'].
    intros [= <- <-].
    apply flush_insert_Return in Hf as [-> Hfresh].
    rewrite refresh_inserted.
    + rewrite !table_insert, decide_True by done. split; [done |].
      intros tn Htn. by rewrite table_insert, decide_False.
    + intros r' Hr' Heq.
      apply (Hfresh id_column r' (id_column_elem cls) eq_refl Hr').
      unfold getattr. simpl. by rewrite Heq.
  - intros item_id item_data db' r. unfold update_item.
    destruct (first (query_active_id cls db item_id)) as [db_item|] eqn:Hq;
      [| done].
    fold (update_loop now cls db_item item_data).
    destruct flush_update as [db''|e'] eqn:Hf; [| by destruct e'].
    intros [= <- <-].
    apply query_active_id_elem in Hq as (Hin & Hid & _).
    pose proof (update_loop_id cls db_item item_data) as Hkeep.
    rewrite <- Hid, <- Hkeep.
    apply flush_update_Return in Hf as [[_ ->] | [_ ->]].
    + apply (refresh_found _ _ _ db_item); [done | by rewrite Hkeep].
    + apply list_elem_of_lookup in Hin as [i Hi].
      eapply (refresh_found _ _ _
                (apply_set (set_clause (columns now cls) db_item
                              (update_loop now cls db_item item_data)) db_item)).
      * rewrite table_insert, decide_True by done.
        apply list_elem_of_lookup. exists i.
        rewrite sql_update_lookup, Hi. simpl. unfold same_identity.
        by rewrite bool_decide_eq_true_2.
      * rewrite Hkeep. by apply apply_set_keeps_id.
Qed.

(** *** Pagination *)


(** *** Route generation *)

(** C6.  The generator keeps the routes the application already has and
    appends, for each model in turn, five of them under ["/" ++ lower
    model_name]: POST and GET on the collection path, GET, PUT and DELETE
    on the item path, each bound to the CRUD operations of that model. *)
Theorem generate_crud_routes_five_per_model app (models : dict ModelClass) :
  generate_crud_routes now app models
  = List.app app
     (flat_map (fun m =>
       let model_name := m.1 in
       let model_class := m.2 in
       let ops := create_crud_operations now model_class in
       let schema := create_pydantic_model now model_class (Some request_exclude) in
       let prefix := "/" ++ lower model_name in
       [ mkRoute POST (prefix ++ "/") (Some rm_dict) [model_name]
           (ItemBody schema (make_create_endpoint now model_class ops));
         mkRoute GET (prefix ++ "/{item_id}") (Some rm_dict) [model_name]
           (ItemId (make_get_endpoint now model_class ops));
         mkRoute GET (prefix ++ "/") (Some rm_List_dict) [model_name]
           (Page (make_get_all_endpoint now model_class ops));
         mkRoute PUT (prefix ++ "/{item_id}") (Some rm_dict) [model_name]
           (ItemIdBody schema (make_update_endpoint now model_class ops));
         mkRoute DELETE (prefix ++ "/{item_id}") None [model_name]
           (ItemId (make_delete_endpoint model_class ops)) ]) models)
    /\ length (generate_crud_routes now app models)
       = (length app + 5 * length models)%nat.
Proof.
  match goal with
  | |- _ = List.app _ (flat_map ?f _) /\ _ => set (five := f)
  end.
  assert (forall routes,
            generate_crud_routes now routes models
            = List.app routes (flat_map five models)) as Heq.
  { induction models as [|[model_name model_class] models' IH]; intros routes.
    - simpl. by rewrite app_nil_r.
    - unfold generate_crud_routes in *. simpl. rewrite IH.
      unfold register. simpl. by rewrite <- !app_assoc. }
  split; [apply Heq |].
  rewrite Heq, length_app. f_equal.
  clear Heq. induction models as [|m models' IH]; [done |].
  simpl. rewrite IH. lia.
Qed.

(** *** Schema derivation *)

Lemma schema_step_excluded exclude fields c :
  name c ∈ exclude -> schema_step exclude fields c = fields.
Proof. intros H. unfold schema_step. by rewrite bool_decide_eq_true_2. Qed.

Lemma schema_step_included exclude fields c :
  "id" ∈ exclude -> name c ∉ exclude -> name c ∉ keys fields ->
  schema_step exclude fields c = (fields ++ [(name c, field_of c)])%list.
Proof.
  intros Hid Hex Hfresh. unfold schema_step, field_of.
  assert (name c <> "id") as Hnid by (by intros Heq; rewrite Heq in Hex).
  rewrite (bool_decide_eq_false_2 (name c ∈ exclude)) by done.
  rewrite (bool_decide_eq_false_2 (name c = "id")) by done.
  rewrite andb_true_r. simpl.
  destruct (nullable c); [by apply dict_set_fresh |].
  destruct (default c) as [[arg | seq] |]; by apply dict_set_fresh.
Qed.

Lemma schema_fields_fold (exclude : list string) cols acc :
  "id" ∈ exclude ->
  NoDup (name <$> cols) ->
  (forall k, k ∈ keys acc -> k ∉ name <$> cols) ->
  foldl (schema_step exclude) acc cols
  = (acc ++ ((fun c => (name c, field_of c))
               <$> filter (fun c => name c ∉ exclude) cols))%list.
Proof.
  intros Hid. revert acc.
  induction cols as [|c cols IH]; intros acc Hnd Hacc.
  - simpl. by rewrite app_nil_r.
  - simpl in Hnd. apply NoDup_cons in Hnd as [Hc Hnd].
    cbn [foldl]. destruct (decide (name c ∈ exclude)) as [Hex | Hex].
    + rewrite schema_step_excluded by done.
      rewrite filter_cons_False by (intros H; by apply H).
      apply IH; [done |]. intros k Hk Hin. apply (Hacc k Hk). by right.
    + rewrite schema_step_included; [| done | done |].
      * rewrite filter_cons_True by done.
        rewrite IH; [by rewrite <- app_assoc | done |].
        intros k Hk Hin. unfold keys in Hk. rewrite fmap_app in Hk.
        apply elem_of_app in Hk as [Hk | Hk].
        -- apply (Hacc k Hk). by right.
        -- apply list_elem_of_singleton in Hk. simpl in Hk. by subst k.
      * intros Hk. apply (Hacc _ Hk). left.
Qed.

Lemma create_pydantic_model_fields cls exclude :
  model_fields (create_pydantic_model now cls (Some exclude))
  = foldl (schema_step exclude) [] (columns now cls).
Proof. reflexivity. Qed.

(** C7.  The request schema of a class, used for create and for update
    alike, has one field per column whose name is not [id], [created_at],
    [updated_at] or [is_active], in column order.  The field of a column
    carries the Python type of the column type ([str] where the type has
    none); a nullable column gives an optional field with default [None],
    and a column that is not nullable and has no default gives a required
    field. *)
Theorem request_schema_follows_columns cls :
  distinct_columns now cls ->
  let schema := create_pydantic_model now cls (Some request_exclude) in
  let cols := filter (fun c => name c ∉ request_exclude) (columns now cls) in
  keys (model_fields schema) = name <$> cols
  /\ NoDup (keys (model_fields schema))
  /\ (forall k, k ∈ request_exclude -> dict_get (model_fields schema) k = None)
  /\ forall c, c ∈ cols ->
       let t := option.default py_str (python_type (type_ c)) in
       exists dflt,
         dict_get (model_fields schema) (name c)
         = Some (if nullable c then Optional t else Plain t, dflt)
         /\ (nullable c = true -> dflt = DefaultValue VNone)
         /\ (nullable c = false -> default c = None -> dflt = Ellipsis)
         /\ (forall arg, nullable c = false ->
               default c = Some (ScalarDefault arg) -> dflt = DefaultValue arg).
Proof.
  intros Hnd. cbv zeta. rewrite create_pydantic_model_fields.
  rewrite schema_fields_fold;
    [| set_solver | done | by intros k Hk; apply elem_of_nil in Hk].
  rewrite app_nil_l. set (cols := filter _ (columns now cls)).
  assert (keys ((fun c => (name c, field_of c)) <$> cols) = name <$> cols) as Hkeys.
  { unfold keys. rewrite <- list_fmap_compose. done. }
  assert (NoDup (name <$> cols)) as Hnd'.
  { eapply sublist_NoDup; [exact Hnd |]. apply fmap_sublist, sublist_filter. }
  split; [done |]. split; [by rewrite Hkeys |]. split.
  - intros k Hk. apply dict_get_None. rewrite Hkeys.
    intros Hin. apply list_elem_of_fmap in Hin as (c & -> & Hc).
    apply list_elem_of_filter in Hc as [Hn _]. done.
  - intros c Hc. exists (field_of c).2. split.
    + rewrite (dict_get_elem _ _ (field_of c)).
      * f_equal. unfold field_of. destruct (nullable c); [done |].
        by destruct (default c) as [[|]|].
      * by rewrite Hkeys.
      * by apply (list_elem_of_fmap_2 (fun c => (name c, field_of c))).
    + unfold field_of. split; [by intros -> |]. split.
      * by intros -> ->.
      * by intros arg -> ->.
Qed.

(** *** What an update writes *)

Lemma update_loop_cons cls db_item key value item_data :
  update_loop now cls db_item ((key, value) :: item_data)
  = update_loop now cls
      (if hasattr now cls key && negb (bool_decide (key = "id"))
       then setattr now cls db_item key value else db_item) item_data.
Proof. reflexivity. Qed.


Lemma update_loop_other cls db_item item_data k :
  k ∉ keys item_data ->
  update_loop now cls db_item item_data !! k = db_item !! k.
Proof.
  revert db_item. induction item_data as [|[key value] item_data IH];
    intros db_item Hk; [done |].
  unfold keys in Hk. simpl in Hk. apply not_elem_of_cons in Hk as [Hne Hk].
  rewrite update_loop_cons, IH by done.
  destruct (_ && _); [| done]. by apply setattr_other.
Qed.

Lemma update_loop_assigned cls db_item item_data k v :
  NoDup (keys item_data) -> (k, v) ∈ item_data ->
  is_column now cls k = true -> k <> "id" ->
  update_loop now cls db_item item_data !! k = Some v.
Proof.
  intros Hnd Hin Hcol Hnid. revert db_item Hnd Hin.
  induction item_data as [|[key value] item_data IH]; intros db_item Hnd Hin.
  - by apply elem_of_nil in Hin.
  - unfold keys in Hnd. simpl in Hnd. apply NoDup_cons in Hnd as [Hfresh Hnd].
    rewrite update_loop_cons.
    apply elem_of_cons in Hin as [[= <- <-] | Hin].
    + rewrite update_loop_other by done.
      unfold hasattr. rewrite Hcol. simpl.
      rewrite bool_decide_eq_false_2 by done. simpl.
      unfold setattr. rewrite Hcol. apply lookup_insert_eq.
    + by apply IH.
Qed.

Lemma sql_update_ids cls old new rows :
  distinct_columns now cls -> new !! "id" = old !! "id" ->
  ids (sql_update (set_clause (columns now cls) old new) old rows) = ids rows.
Proof.
  intros Hnd Hid. unfold ids, sql_update. rewrite <- list_fmap_compose.
  apply list_fmap_ext. intros i r _. simpl.
  destruct (same_identity old r); [| done]. by apply apply_set_keeps_id.
Qed.

(** Under the primary-key constraint, reloading finds the one row with the
    key of the object. *)
Lemma refresh_unique tn db obj i r :
  NoDup (ids (table db tn)) ->
  table db tn !! i = Some r -> r !! "id" = obj !! "id" ->
  refresh tn db obj = r.
Proof.
  intros Hnd Hi Hid. unfold refresh.
  destruct (first (filter (same_identity obj) (table db tn))) as [r0|] eqn:E.
  - simpl. apply (first_filter_elem (same_identity obj)) in E as [Hr0 Hs].
    unfold same_identity in Hs. apply bool_decide_eq_true in Hs.
    apply list_elem_of_lookup in Hr0 as [j Hj].
    assert (i = j) as -> by (eapply NoDup_ids_eq; eauto; congruence).
    congruence.
  - exfalso.
    apply (first_filter_None (same_identity obj) _ r) in E;
      [| by eapply list_elem_of_lookup_2].
    unfold same_identity in E. by apply bool_decide_eq_false in E.
Qed.


(** *** Deleting twice *)

Lemma no_active_row_get_None cls db item_id :
  (forall r, r ∈ table db (__tablename__ cls) ->
             r !! "id" = Some (VInt item_id) -> is_active r = false) ->
  get_item cls db item_id = None.
Proof.
  intros Hall. unfold get_item.
  destruct (first (query_active_id cls db item_id)) as [r|] eqn:Hq; [| done].
  apply query_active_id_elem in Hq as (Hin & Hid & Hact).
  rewrite (Hall r Hin Hid) in Hact. done.
Qed.

(** After a successful delete no row with the requested id is active. *)
Lemma delete_item_leaves_no_active_row cls db item_id db' r :
  delete_item now cls db item_id = (db', Return true) ->
  r ∈ table db' (__tablename__ cls) ->
  r !! "id" = Some (VInt item_id) -> is_active r = false.
Proof.
  intros Hdel Hin Hid.
  apply delete_item_Return_true in Hdel as (db_item & Hq & ->).
  apply query_active_id_elem in Hq as (_ & Hid0 & Hact).
  rewrite table_insert, decide_True in Hin by done.
  apply list_elem_of_lookup in Hin as [i Hi].
  rewrite sql_update_lookup in Hi.
  destruct (table db (__tablename__ cls) !! i) as [r0|]; [| done].
  simpl in Hi. injection Hi as <-.
  unfold same_identity in *. case_bool_decide as Hsame.
  - unfold is_active. apply bool_decide_eq_false_2.
    rewrite (apply_set_constant _ _ _ (VBool false)); [done | |].
    + apply (list_elem_of_fmap_2 name _ is_active_column).
      apply (list_elem_of_fmap_2 fst _ (is_active_column, VBool false)).
      apply soft_delete_set_elem; [done |].
      split; [apply is_active_column_elem | done].
    + intros c w Hcw Hname.
      apply soft_delete_set_elem in Hcw as [_ Hw]; [| done].
      by rewrite bool_decide_eq_true_2 in Hw.
  - congruence.
Qed.

(** C9.  When every row with the requested id is inactive, or there is
    none, delete returns [False], its endpoint raises 404, and the
    database is untouched.  Hence a second delete of the same id changes
    nothing: after a successful delete the next one returns [False], and
    in every case the state after two deletes is the state after one. *)
Theorem delete_item_is_idempotent cls db item_id :
  ((forall r, r ∈ table db (__tablename__ cls) ->
              r !! "id" = Some (VInt item_id) -> is_active r = false) ->
   delete_item now cls db item_id = (db, Return false)
   /\ make_delete_endpoint cls (create_crud_operations now cls) db item_id
      = (db, Raise (not_found cls)))
  /\ (forall db1,
        delete_item now cls db item_id = (db1, Return true) ->
        delete_item now cls db1 item_id = (db1, Return false))
  /\ (delete_item now cls (delete_item now cls db item_id).1 item_id).1
     = (delete_item now cls db item_id).1.
Proof.
  assert (forall db0,
            (forall r, r ∈ table db0 (__tablename__ cls) ->
                       r !! "id" = Some (VInt item_id) -> is_active r = false) ->
            delete_item now cls db0 item_id = (db0, Return false)) as Hnone.
  { intros db0 Hall. apply no_active_row_get_None in Hall.
    unfold get_item in Hall. unfold delete_item. by rewrite Hall. }
  assert (forall db1,
            delete_item now cls db item_id = (db1, Return true) ->
            delete_item now cls db1 item_id = (db1, Return false)) as Htwice.
  { intros db1 Hdel. apply Hnone. intros r Hin Hid.
    by eapply delete_item_leaves_no_active_row. }
  split; [| split; [exact Htwice |]].
  - intros Hall. split; [by apply Hnone |].
    unfold make_delete_endpoint. simpl. by rewrite Hnone.
  - destruct (delete_item now cls db item_id) as [db1 [[] | e]] eqn:Hdel; simpl.
    + by rewrite (Htwice db1).
    + assert (db1 = db) as ->; [| by rewrite Hdel].
      revert Hdel. unfold delete_item. destruct first; [| by intros [= <-]].
      by destruct flush_update.
    + assert (db1 = db) as ->; [| by rewrite Hdel].
      revert Hdel. unfold delete_item. destruct first; [| done].
      destruct flush_update; [done |]. by intros [= <- _].
Qed.

(** *** Create, then read *)

Lemma dict_set_keys {V} (d : dict V) k v k' :
  k' ∈ keys (dict_set d k v) -> k' = k \/ k' ∈ keys d.
Proof.
  unfold keys. induction d as [|[k0 v0] d IH]; simpl.
  - intros H. apply list_elem_of_singleton in H. by left.
  - case_bool_decide as Hk; simpl.
    + intros H. by right.
    + intros [-> | H]%elem_of_cons; [right; left |].
      destruct (IH H) as [-> | Hd]; [by left | right; by right].
Qed.

Lemma schema_step_keys exclude fields c k :
  k ∈ keys (schema_step exclude fields c) -> k ∈ keys fields \/ k ∉ exclude.
Proof.
  unfold schema_step. case_bool_decide as Hex; [by left |].
  assert (forall f, k ∈ keys (dict_set fields (name c) f) ->
                    k ∈ keys fields \/ k ∉ exclude) as Hset.
  { intros f [-> | H]%dict_set_keys; [by right | by left]. }
  destruct (nullable c && _); [apply Hset |].
  destruct (default c) as [[|]|]; try apply Hset.
  case_bool_decide; [by left | apply Hset].
Qed.

Lemma schema_keys_not_excluded cls exclude k :
  k ∈ keys (model_fields (create_pydantic_model now cls (Some exclude))) ->
  k ∉ exclude.
Proof.
  rewrite create_pydantic_model_fields.
  assert (forall cols acc,
            k ∈ keys (foldl (schema_step exclude) acc cols) ->
            k ∈ keys acc \/ k ∉ exclude) as Hfold.
  { induction cols as [|c cols IH]; intros acc Hk; [by left |].
    simpl in Hk. apply IH in Hk as [Hk | Hk]; [| by right].
    by apply schema_step_keys in Hk. }
  intros Hk. apply Hfold in Hk as [Hk | Hk]; [| done].
  by apply elem_of_nil in Hk.
Qed.

(** A validated request body names schema fields only. *)
Lemma validated_keys cls item k :
  validated (create_pydantic_model now cls (Some request_exclude)) item = true ->
  k ∈ keys item -> k ∉ request_exclude.
Proof.
  unfold validated. intros Hv Hk.
  apply andb_true_iff in Hv as [Hv _]. apply andb_true_iff in Hv as [Hv _].
  apply Is_true_true, forallb_True in Hv. rewrite Forall_forall in Hv.
  unfold keys in Hk. apply list_elem_of_fmap in Hk as ([k' v] & -> & Hkv).
  specialize (Hv _ Hkv). simpl in *.
  destruct (dict_get _ k') as [[a dflt]|] eqn:Hget; [| done].
  eapply schema_keys_not_excluded, dict_get_Some_key, Hget.
Qed.

Lemma construct_unset cls item_data attrs k :
  construct now cls item_data = Return attrs ->
  k ∉ keys item_data -> attrs !! k = None.
Proof.
  unfold construct.
  assert (forall data (acc : Result Row) attrs,
            foldl (fun acc kv =>
                     match acc with
                     | Return self =>
                         if hasattr now cls kv.1
                         then Return (setattr now cls self kv.1 kv.2)
                         else Raise (TypeError kv.1)
                     | Raise e => Raise e
                     end) acc data = Return attrs ->
            k ∉ keys data ->
            exists self, acc = Return self /\ attrs !! k = self !! k) as Hfold.
  { induction data as [|[key value] data IH]; intros acc attrs' Hf Hk.
    - simpl in Hf. subst acc. by eexists.
    - unfold keys in Hk. simpl in Hk, Hf.
      apply not_elem_of_cons in Hk as [Hne Hk].
      apply IH in Hf as (self' & Hacc & Hlook); [| done].
      destruct acc as [self|e]; [| done]. exists self. split; [done |].
      destruct (hasattr now cls key); [| done]. injection Hacc as <-.
      rewrite Hlook. by apply setattr_other. }
  intros Hf Hk. destruct (Hfold _ _ _ Hf Hk) as (self & [= <-] & ->).
  apply lookup_empty.
Qed.

(** The cells an INSERT fills from the [BaseModel] defaults when the
    object leaves them unset. *)
Lemma insert_row_defaults cls new_id attrs :
  attrs !! "id" = None -> attrs !! "is_active" = None ->
  insert_row (columns now cls) new_id attrs !! "id" = Some (VInt new_id)
  /\ insert_row (columns now cls) new_id attrs !! "is_active"
     = Some (VBool true).
Proof.
  intros Hid Hact. unfold insert_row, columns. simpl.
  unfold insert_value, getattr. simpl. rewrite Hid, Hact. simpl.
  split.
  - apply lookup_insert_eq.
  - do 3 (rewrite lookup_insert_ne by done). apply lookup_insert_eq.
Qed.

(** C10.  A create request that passed validation against the request
    schema, once committed, has stored a row with [is_active = True] and
    the generated key, as last row of the table; the response is that row
    as a dictionary, and [get_item] on the key returns that row. *)
Theorem created_item_is_active_and_found cls db new_id item db' d :
  validated (create_pydantic_model now cls (Some request_exclude)) item = true ->
  make_create_endpoint now cls (create_crud_operations now cls) db new_id item
  = (db', Return (JDict d)) ->
  exists r,
    d = to_dict now cls r
    /\ is_active r = true
    /\ r !! "id" = Some (VInt new_id)
    /\ table db' (__tablename__ cls)
       = (table db (__tablename__ cls) ++ [r])%list
    /\ get_item cls db' new_id = Some r.
Proof.
  intros Hv. unfold make_create_endpoint, model_dump_exclude_unset. simpl.
  unfold create_item.
  destruct (construct now cls item) as [attrs|e] eqn:Hc; [| done].
  destruct flush_insert as [db''|e'] eqn:Hf; [| by destruct e'].
  intros [= <- <-].
  set (db_item := insert_row (columns now cls) new_id attrs) in *.
  destruct (insert_row_defaults cls new_id attrs) as [Hid Hact].
  { eapply construct_unset; [exact Hc |]. intros Hk.
    eapply validated_keys; [exact Hv | exact Hk | repeat constructor]. }
  { eapply construct_unset; [exact Hc |]. intros Hk.
    eapply validated_keys; [exact Hv | exact Hk | repeat constructor]. }
  fold db_item in Hid, Hact.
  apply flush_insert_Return in Hf as [-> Hfresh].
  assert (forall r', r' ∈ table db (__tablename__ cls) ->
                     r' !! "id" <> db_item !! "id") as Hnew.
  { intros r' Hr' Heq.
    apply (Hfresh id_column r' (id_column_elem cls) eq_refl Hr').
    unfold getattr. simpl. by rewrite Heq. }
  rewrite refresh_inserted by done.
  exists db_item. split; [done |]. split.
  { unfold is_active. by rewrite Hact, bool_decide_eq_true_2. }
  split; [done |]. split.
  { by rewrite table_insert, decide_True. }
  unfold get_item, query_active_id.
  rewrite table_insert, decide_True by done. rewrite filter_app.
  rewrite (filter_none (fun r => id_is new_id r && is_active r)).
  - rewrite filter_cons_True; [done |].
    unfold id_is, is_active. rewrite Hid, Hact.
    by rewrite !bool_decide_eq_true_2.
  - intros r' Hr'. apply andb_false_iff. left. unfold id_is.
    apply bool_decide_eq_false_2. rewrite <- Hid. by apply Hnew.
Qed.

(** *** The primary-key constraint is kept *)

Lemma create_item_keeps_primary_key cls db new_id item_data :
  primary_key_holds db cls ->
  primary_key_holds (create_item now cls db new_id item_data).1 cls.
Proof.
  intros Hpk. unfold create_item.
  destruct construct as [attrs|]; [| done].
  destruct flush_insert as [db'|e] eqn:Hf; [| by destruct e].
  simpl. apply flush_insert_Return in Hf as [-> Hfresh].
  unfold primary_key_holds in *. rewrite table_insert, decide_True by done.
  unfold ids in *. rewrite fmap_app. apply NoDup_app. split; [done |].
  split; [| apply NoDup_singleton].
  intros key Hkey Hin. apply list_elem_of_singleton in Hin. simpl in Hin.
  apply list_elem_of_fmap in Hkey as (r' & Hr' & Hmem). subst key.
  apply (Hfresh id_column r' (id_column_elem cls) eq_refl Hmem).
  unfold getattr. simpl. by rewrite Hin.
Qed.

Lemma update_item_keeps_primary_key cls db item_id item_data :
  distinct_columns now cls ->
  primary_key_holds db cls ->
  primary_key_holds (update_item now cls db item_id item_data).1 cls.
Proof.
  intros Hnd Hpk. unfold update_item.
  destruct first as [db_item|]; [| done].
  fold (update_loop now cls db_item item_data).
  destruct flush_update as [db'|e] eqn:Hf; [| by destruct e].
  simpl. apply flush_update_Return in Hf as [[_ ->] | [_ ->]]; [done |].
  unfold primary_key_holds in *. rewrite table_insert, decide_True by done.
  rewrite sql_update_ids; [done | done | apply update_loop_id].
Qed.

Lemma delete_item_keeps_primary_key cls db item_id :
  distinct_columns now cls ->
  primary_key_holds db cls ->
  primary_key_holds (delete_item now cls db item_id).1 cls.
Proof.
  intros Hnd Hpk. unfold delete_item.
  destruct first as [db_item|]; [| done].
  destruct flush_update as [db'|e] eqn:Hf; [| done].
  simpl. apply flush_update_Return in Hf as [[_ ->] | [_ ->]]; [done |].
  unfold primary_key_holds in *. rewrite table_insert, decide_True by done.
  rewrite sql_update_ids; [done | done |].
  unfold soft_delete. by apply lookup_insert_ne.
Qed.

(** *** Reading after writing *)

Lemma get_item_unique cls db item_id i r :
  primary_key_holds db cls ->
  table db (__tablename__ cls) !! i = Some r ->
  r !! "id" = Some (VInt item_id) -> is_active r = true ->
  get_item cls db item_id = Some r.
Proof.
  intros Hpk Hi Hid Hact. unfold get_item.
  destruct (first (query_active_id cls db item_id)) as [r0|] eqn:Hq.
  - apply query_active_id_elem in Hq as (Hin & Hid0 & _).
    apply list_elem_of_lookup in Hin as [j Hj].
    assert (i = j) as -> by (eapply NoDup_ids_eq; eauto; congruence).
    congruence.
  - exfalso. unfold query_active_id in Hq.
    apply (first_filter_None (fun r => id_is item_id r && is_active r) _ r) in Hq;
      [| by eapply list_elem_of_lookup_2].
    unfold id_is in Hq. rewrite Hact, bool_decide_eq_true_2 in Hq by done.
    done.
Qed.

(** A column that the object leaves as loaded and that has no [onupdate]
    value is not part of the UPDATE. *)
Lemma set_clause_skips cols old new r k :
  getattr new k = getattr old k ->
  (forall c, c ∈ cols -> name c = k -> onupdate c = None) ->
  apply_set (set_clause cols old new) r !! k = r !! k.
Proof.
  intros Hsame Hno. apply apply_set_other.
  intros Hin. apply list_elem_of_fmap in Hin as (c & -> & Hc).
  apply list_elem_of_fmap in Hc as ([c' v] & -> & Hcv). simpl in *.
  apply set_clause_elem in Hcv as (_ & Hc' & Hv).
  unfold changed in Hv. rewrite bool_decide_eq_false_2 in Hv
    by (by intros H; apply H).
  by rewrite (Hno c' Hc' eq_refl) in Hv.
Qed.

(** The columns of [BaseModel] by name, when names are distinct. *)
Lemma base_column_by_name cls c c0 :
  distinct_columns now cls -> c ∈ columns now cls ->
  c0 ∈ BaseModel_columns now -> name c = name c0 -> c = c0.
Proof.
  intros Hnd Hc Hc0 Hname.
  eapply NoDup_fmap_elem_inj; [exact Hnd | done | | done].
  unfold columns. apply elem_of_app. by left.
Qed.

Lemma no_onupdate_on cls k c :
  distinct_columns now cls ->
  k = "id" \/ k = "created_at" \/ k = "is_active" ->
  c ∈ columns now cls -> name c = k -> onupdate c = None.
Proof.
  intros Hnd Hk Hc Hname.
  destruct Hk as [-> | [-> | ->]].
  - rewrite (base_column_by_name cls c id_column Hnd Hc); [done | | done].
    unfold BaseModel_columns. repeat constructor.
  - rewrite (base_column_by_name cls c
               (mkColumn "created_at" DateTime false false
                  (Some (ScalarDefault (VDateTime (created_at_default now))))
                  None None) Hnd Hc); [done | | done].
    unfold BaseModel_columns. repeat constructor.
  - rewrite (base_column_by_name cls c is_active_column Hnd Hc); [done | | done].
    unfold BaseModel_columns. repeat constructor.
Qed.

(** The row a successful update returns, and where it sits. *)
Lemma update_item_Return_Some cls db item_id item_data db' r :
  distinct_columns now cls ->
  primary_key_holds db cls ->
  update_item now cls db item_id item_data = (db', Return (Some r)) ->
  exists i db_item,
    table db (__tablename__ cls) !! i = Some db_item
    /\ db_item !! "id" = Some (VInt item_id)
    /\ is_active db_item = true
    /\ table db' (__tablename__ cls) !! i = Some r
    /\ ids (table db' (__tablename__ cls)) = ids (table db (__tablename__ cls))
    /\ ((db' = db /\ r = db_item
         /\ set_clause (columns now cls) db_item
              (update_loop now cls db_item item_data) = [])
        \/ r = apply_set (set_clause (columns now cls) db_item
                            (update_loop now cls db_item item_data)) db_item).
Proof.
  intros Hnd Hpk. unfold update_item.
  destruct (first (query_active_id cls db item_id)) as [db_item|] eqn:Hq;
    [| done].
  fold (update_loop now cls db_item item_data).
  destruct flush_update as [db''|e'] eqn:Hf; [| by destruct e'].
  intros [= <- <-].
  apply query_active_id_elem in Hq as (Hin & Hid & Hact).
  apply list_elem_of_lookup in Hin as [i Hi].
  pose proof (update_loop_id cls db_item item_data) as Hkeep.
  exists i, db_item. split; [done |]. split; [done |]. split; [done |].
  apply flush_update_Return in Hf as [[Hnil ->] | [Hsets ->]].
  - rewrite (refresh_unique _ _ _ i db_item); [| done | done | congruence].
    split; [done |]. split; [done |]. by left.
  - assert (ids (table
             (<[__tablename__ cls :=
                  sql_update (set_clause (columns now cls) db_item
                               (update_loop now cls db_item item_data))
                    db_item (table db (__tablename__ cls))]> db)
             (__tablename__ cls)) = ids (table db (__tablename__ cls))) as Hids.
    { rewrite table_insert, decide_True by done. by apply sql_update_ids. }
    assert (table
              (<[__tablename__ cls :=
                   sql_update (set_clause (columns now cls) db_item
                                (update_loop now cls db_item item_data))
                     db_item (table db (__tablename__ cls))]> db)
              (__tablename__ cls) !! i
            = Some (apply_set (set_clause (columns now cls) db_item
                                 (update_loop now cls db_item item_data))
                      db_item)) as Hi'.
    { rewrite table_insert, decide_True by done.
      rewrite sql_update_lookup, Hi. simpl. unfold same_identity.
      by rewrite bool_decide_eq_true_2. }
    rewrite (refresh_unique _ _ _ i _ ltac:(by rewrite Hids) Hi').
    + split; [done |]. split; [done |]. by right.
    + rewrite Hkeep. by apply apply_set_keeps_id.
Qed.

(** Rows that a map leaves alone, or that fail a test before and after,
    do not change what the test selects. *)
Lemma filter_fmap_frame (P : Row -> bool) (f : Row -> Row) rows :
  (forall r, r ∈ rows -> f r = r \/ (P r = false /\ P (f r) = false)) ->
  filter (fun x => P x) (f <$> rows) = filter (fun x => P x) rows.
Proof.
  induction rows as [|r rows IH]; intros H; [done |].
  rewrite fmap_cons.
  assert (filter (fun x => P x) (f <$> rows) = filter (fun x => P x) rows) as IH'.
  { apply IH. intros r' Hr'. apply H. by right. }
  destruct (H r) as [Hr | [Hr Hfr]]; [left | |].
  - rewrite Hr. rewrite !filter_cons. by rewrite IH'.
  - rewrite !filter_cons_False by (rewrite ?Hr, ?Hfr; by intros ?).
    exact IH'.
Qed.

(** X1.  After a successful delete the item is gone from every read:
    [get_item] finds nothing, the GET endpoint raises 404, an update
    answers [None] without writing, and no page of [get_items] shows a
    row with that id. *)
Theorem deleted_item_is_hidden cls db item_id db' :
  delete_item now cls db item_id = (db', Return true) ->
  get_item cls db' item_id = None
  /\ make_get_endpoint now cls (create_crud_operations now cls) db' item_id
     = (db', Raise (not_found cls))
  /\ (forall item_data,
        update_item now cls db' item_id item_data = (db', Return None))
  /\ (forall skip limit rows r,
        get_items cls db' skip limit = Return rows -> r ∈ rows ->
        r !! "id" <> Some (VInt item_id)).
Proof.
  intros Hdel.
  assert (forall r, r ∈ table db' (__tablename__ cls) ->
                    r !! "id" = Some (VInt item_id) -> is_active r = false)
    as Hgone by (intros r; by eapply delete_item_leaves_no_active_row).
  pose proof (no_active_row_get_None cls db' item_id Hgone) as Hnone.
  split; [done |]. split; [| split].
  - unfold make_get_endpoint. simpl. by rewrite Hnone.
  - intros item_data. unfold update_item. unfold get_item in Hnone.
    by rewrite Hnone.
  - intros skip limit rows r. unfold get_items, offset_limit_all.
    repeat case_bool_decide; try done. intros [= <-] Hin Hid.
    apply subseteq_take, subseteq_drop in Hin.
    apply list_elem_of_filter in Hin as [Hact Hin].
    apply Is_true_true in Hact. by rewrite (Hgone r Hin Hid) in Hact.
Qed.

Lemma flush_update_query_other cls db old new db' item_id j :
  distinct_columns now cls ->
  flush_update (columns now cls) (__tablename__ cls) db old new = Return db' ->
  new !! "id" = old !! "id" -> old !! "id" = Some (VInt item_id) ->
  j <> item_id ->
  query_active_id cls db' j = query_active_id cls db j.
Proof.
  intros Hnd Hf Hkeep Hid Hj.
  apply flush_update_Return in Hf as [[_ ->] | [_ ->]]; [done |].
  unfold query_active_id. rewrite table_insert, decide_True by done.
  unfold sql_update.
  apply (filter_fmap_frame (fun r => id_is j r && is_active r)).
  intros r _. unfold same_identity. case_bool_decide as Hsame; [| by left].
  right. unfold id_is.
  rewrite (apply_set_keeps_id cls old new r Hnd Hkeep), Hsame, Hid.
  rewrite bool_decide_eq_false_2 by congruence. done.
Qed.

(** X2.  Writing one item does not change what [get_item] returns for
    another id of the same class: not an update, not a delete, and not a
    create whose new row has another id. *)
Theorem other_items_read_the_same cls db item_id j :
  distinct_columns now cls ->
  j <> item_id ->
  (forall item_data,
     get_item cls (update_item now cls db item_id item_data).1 j
     = get_item cls db j)
  /\ get_item cls (delete_item now cls db item_id).1 j = get_item cls db j
  /\ (forall new_id item_data db' r,
        create_item now cls db new_id item_data = (db', Return r) ->
        r !! "id" = Some (VInt item_id) ->
        get_item cls db' j = get_item cls db j).
Proof.
  intros Hnd Hj. split; [| split].
  - intros item_data. unfold update_item.
    destruct (first (query_active_id cls db item_id)) as [db_item|] eqn:Hq;
      [| done].
    fold (update_loop now cls db_item item_data).
    destruct flush_update as [db''|e'] eqn:Hf; [| by destruct e'].
    simpl. unfold get_item.
    apply query_active_id_elem in Hq as (_ & Hid & _).
    by rewrite (flush_update_query_other cls db db_item _ db'' item_id j Hnd Hf
                  (update_loop_id cls db_item item_data) Hid Hj).
  - unfold delete_item.
    destruct (first (query_active_id cls db item_id)) as [db_item|] eqn:Hq;
      [| done].
    destruct flush_update as [db''|e'] eqn:Hf; [| done].
    simpl. unfold get_item.
    apply query_active_id_elem in Hq as (_ & Hid & _).
    rewrite (flush_update_query_other cls db db_item _ db'' item_id j Hnd Hf);
      [done | | done | done].
    unfold soft_delete. by apply lookup_insert_ne.
  - intros new_id item_data db' r. unfold create_item.
    destruct construct as [attrs|]; [| done].
    destruct flush_insert as [db''|e'] eqn:Hf; [| by destruct e'].
    intros [= <- <-] Hid.
    apply flush_insert_Return in Hf as [-> Hfresh].
    assert (forall r', r' ∈ table db (__tablename__ cls) ->
              r' !! "id" <> insert_row (columns now cls) new_id attrs !! "id")
      as Hnew.
    { intros r' Hr' Heq.
      apply (Hfresh id_column r' (id_column_elem cls) eq_refl Hr').
      unfold getattr. simpl. by rewrite Heq. }
    rewrite refresh_inserted in Hid by done.
    unfold get_item, query_active_id.
    rewrite table_insert, decide_True by done.
    rewrite filter_app, filter_cons_False, filter_nil, app_nil_r; [done |].
    unfold id_is. rewrite Hid, bool_decide_eq_false_2 by congruence.
    by intros ?.
Qed.

(** X3.  [get_item] and [get_items] agree.  A row found by id is on the
    page that spans the whole table; and, the primary key holding, every
    row on any page is the one [get_item] returns for its id. *)
Theorem get_item_agrees_with_get_items cls db :
  (forall item_id r,
     get_item cls db item_id = Some r ->
     exists rows,
       get_items cls db (Some 0)
         (Some (Z.of_nat (length (table db (__tablename__ cls)))))
       = Return rows
       /\ r ∈ rows)
  /\ (primary_key_holds db cls ->
      forall skip limit rows r item_id,
        get_items cls db skip limit = Return rows -> r ∈ rows ->
        r !! "id" = Some (VInt item_id) ->
        get_item cls db item_id = Some r).
Proof.
  split.
  - intros item_id r Hget. unfold get_item in Hget.
    apply query_active_id_elem in Hget as (Hin & _ & Hact).
    unfold get_items, offset_limit_all. simpl.
    rewrite !bool_decide_eq_false_2 by lia.
    eexists. split; [reflexivity |].
    rewrite Nat2Z.id. simpl. rewrite take_ge by apply length_filter.
    apply list_elem_of_filter. split; [by apply Is_true_true | done].
  - intros Hpk skip limit rows r item_id. unfold get_items, offset_limit_all.
    repeat case_bool_decide; try done. intros [= <-] Hin Hid.
    apply subseteq_take, subseteq_drop in Hin.
    apply list_elem_of_filter in Hin as [Hact Hin].
    apply Is_true_true in Hact.
    apply list_elem_of_lookup in Hin as [i Hi].
    by eapply get_item_unique.
Qed.

(** X4.  A PUT with a validated body, once it succeeds, is read back
    unchanged by GET on the same id; and it has left the [id], the
    [created_at] and the [is_active] of the item as they were. *)
Theorem put_then_get_reads_the_update cls db item_id item db' d :
  distinct_columns now cls ->
  primary_key_holds db cls ->
  validated (create_pydantic_model now cls (Some request_exclude)) item = true ->
  make_update_endpoint now cls (create_crud_operations now cls) db item_id item
  = (db', Return (JDict d)) ->
  make_get_endpoint now cls (create_crud_operations now cls) db' item_id
  = (db', Return (JDict d))
  /\ exists r0 r,
       get_item cls db item_id = Some r0
       /\ get_item cls db' item_id = Some r
       /\ d = to_dict now cls r
       /\ r !! "id" = r0 !! "id"
       /\ r !! "created_at" = r0 !! "created_at"
       /\ r !! "is_active" = r0 !! "is_active".
Proof.
  intros Hnd Hpk Hv. unfold make_update_endpoint, model_dump_exclude_unset.
  simpl.
  destruct (update_item now cls db item_id item) as [db1 [[r|] | e]] eqn:Hupd;
    try done.
  intros [= <- <-].
  destruct (update_item_Return_Some cls db item_id item db1 r Hnd Hpk Hupd)
    as (i & db_item & Hi & Hid & Hact & Hi' & Hids & Hr).
  assert (forall k, k = "id" \/ k = "created_at" \/ k = "is_active" ->
                    r !! k = db_item !! k) as Hsame.
  { intros k Hk. destruct Hr as [(_ & -> & _) | ->]; [done |].
    apply set_clause_skips.
    - unfold getattr. f_equal. destruct Hk as [-> | Hk].
      + apply update_loop_id.
      + apply update_loop_other. intros Hin.
        eapply validated_keys; [exact Hv | exact Hin |].
        destruct Hk as [-> | ->]; repeat constructor.
    - intros c Hc Hname. by eapply no_onupdate_on. }
  assert (get_item cls db1 item_id = Some r) as Hget.
  { apply (get_item_unique cls db1 item_id i r); [| done | |].
    - unfold primary_key_holds. by rewrite Hids.
    - rewrite Hsame by (by left). done.
    - unfold is_active in *. rewrite Hsame by (right; by right). done. }
  split.
  - unfold make_get_endpoint. simpl. by rewrite Hget.
  - exists db_item, r. split; [by eapply get_item_unique |].
    split; [done |]. split; [done |].
    split; [apply Hsame; by left |].
    split; apply Hsame; right; [by left | by right].
Qed.



(** X19.  [update_item] itself can soft-delete: when [item_data] assigns
    [False] to [is_active] and the update succeeds, the returned row is
    inactive and the item is gone from [get_item], as after a delete.
    (The request schema has no such field, so a PUT cannot do this.) *)
Theorem update_item_can_deactivate cls db item_id item_data db' r :
  distinct_columns now cls ->
  primary_key_holds db cls ->
  NoDup (keys item_data) ->
  ("is_active", VBool false) ∈ item_data ->
  update_item now cls db item_id item_data = (db', Return (Some r)) ->
  is_active r = false /\ get_item cls db' item_id = None.
Proof.
  intros Hnd Hpk Hkeys Hin Hupd.
  destruct (update_item_Return_Some cls db item_id item_data db' r Hnd Hpk Hupd)
    as (i & db_item & Hi & Hid & Hact & Hi' & Hids & Hr).
  assert (update_loop now cls db_item item_data !! "is_active"
          = Some (VBool false)) as Hnew.
  { apply update_loop_assigned; [done | done | | done].
    unfold is_column. apply bool_decide_eq_true_2.
    apply (list_elem_of_fmap_2 name _ is_active_column), is_active_column_elem. }
  assert (changed db_item (update_loop now cls db_item item_data)
            is_active_column = true) as Hch.
  { unfold changed, getattr. simpl. rewrite Hnew.
    unfold is_active in Hact. apply bool_decide_eq_true in Hact.
    rewrite Hact. by apply bool_decide_eq_true_2. }
  assert ((is_active_column, VBool false)
          ∈ set_clause (columns now cls) db_item
              (update_loop now cls db_item item_data)) as Hset.
  { apply set_clause_elem. split; [| split; [apply is_active_column_elem |]].
    - exists is_active_column. split; [apply is_active_column_elem | done].
    - rewrite Hch. unfold getattr. simpl. by rewrite Hnew. }
  assert (r !! "is_active" = Some (VBool false)) as Hr'.
  { destruct Hr as [(_ & _ & Hnil) | ->].
    - rewrite Hnil in Hset. by apply elem_of_nil in Hset.
    - apply (apply_set_written _ db_item is_active_column); [| done].
      by apply set_clause_names. }
  assert (is_active r = false) as Hinact.
  { unfold is_active. by rewrite Hr', bool_decide_eq_false_2. }
  split; [done |].
  apply no_active_row_get_None. intros r' Hin' Hid'.
  apply list_elem_of_lookup in Hin' as [j Hj].
  assert (r !! "id" = Some (VInt item_id)) as Hrid.
  { assert (ids (table db' (__tablename__ cls)) !! i = Some (r !! "id")) as Hl
      by (unfold ids; by rewrite list_lookup_fmap, Hi').
    rewrite Hids in Hl. unfold ids in Hl.
    rewrite list_lookup_fmap, Hi in Hl. simpl in Hl. congruence. }
  assert (j = i) as ->.
  { eapply (NoDup_ids_eq (table db' (__tablename__ cls))); eauto.
    - rewrite Hids. exact Hpk.
    - congruence. }
  congruence.
Qed.

(** *** What create refuses and what it stores *)

Lemma find_none_elem {A} (f : A -> bool) (l : list A) x :
  find f l = None -> x ∈ l -> f x = false.
Proof. intros Hf Hx. apply (find_none f l Hf x). by apply list_elem_of_In. Qed.

Lemma construct_fold cls item_data :
  construct now cls item_data
  = foldl (construct_step now cls) (Return ∅) item_data.
Proof. reflexivity. Qed.

Lemma construct_fold_Raise cls e item_data :
  foldl (construct_step now cls) (Raise e) item_data = Raise e.
Proof. induction item_data as [|kv item_data IH]; [done | apply IH]. Qed.

Lemma construct_fold_other cls self item_data attrs k :
  foldl (construct_step now cls) (Return self) item_data = Return attrs ->
  k ∉ keys item_data -> attrs !! k = self !! k.
Proof.
  revert self. induction item_data as [|[key value] item_data IH];
    intros self Hf Hk.
  - simpl in Hf. by injection Hf as <-.
  - unfold keys in Hk. simpl in Hk, Hf.
    apply not_elem_of_cons in Hk as [Hne Hk].
    destruct (hasattr now cls key).
    + rewrite (IH _ Hf Hk). by apply setattr_other.
    + by rewrite construct_fold_Raise in Hf.
Qed.

Lemma construct_fold_assigned cls self item_data attrs k v :
  NoDup (keys item_data) -> (k, v) ∈ item_data -> is_column now cls k = true ->
  foldl (construct_step now cls) (Return self) item_data = Return attrs ->
  attrs !! k = Some v.
Proof.
  intros Hnd Hin Hcol. revert self Hnd Hin.
  induction item_data as [|[key value] item_data IH]; intros self Hnd Hin Hf.
  - by apply elem_of_nil in Hin.
  - unfold keys in Hnd. simpl in Hnd, Hf.
    apply NoDup_cons in Hnd as [Hfresh Hnd].
    destruct (hasattr now cls key);
      [| by rewrite construct_fold_Raise in Hf].
    apply elem_of_cons in Hin as [[= <- <-] | Hin].
    + rewrite (construct_fold_other _ _ _ _ k Hf Hfresh).
      unfold setattr. rewrite Hcol. apply lookup_insert_eq.
    + by eapply IH.
Qed.


(** The constructor fails in one way only. *)
Lemma construct_Raise cls item_data e :
  construct now cls item_data = Raise e -> create_failure e.
Proof.
  rewrite construct_fold.
  assert (forall data (acc : Result Row) e0,
            (forall e1, acc = Raise e1 -> create_failure e1) ->
            foldl (construct_step now cls) acc data = Raise e0 ->
            create_failure e0) as Hgen.
  { induction data as [|kv data IH]; intros acc e0 Hacc Hf.
    - by apply Hacc.
    - simpl in Hf. eapply IH; [| exact Hf].
      intros e1. unfold construct_step. destruct acc as [self|e2].
      + destruct (hasattr now cls kv.1); [done |]. by intros [= <-].
      + intros [= <-]. by apply Hacc. }
  intros Hc. eapply Hgen; [| exact Hc]. done.
Qed.

(** A create whose flush raises ends in one of the three failures and
    leaves the database as it was. *)
Lemma create_item_flush_Raise cls db new_id item_data attrs e' :
  construct now cls item_data = Return attrs ->
  flush_insert (columns now cls) (__tablename__ cls) db
    (insert_row (columns now cls) new_id attrs) = Raise e' ->
  exists e, create_item now cls db new_id item_data = (db, Raise e)
            /\ create_failure e.
Proof.
  intros Hc Hf. unfold create_item. rewrite Hc, Hf.
  apply flush_insert_Raise in Hf as [[c ->] | [orig ->]]; by eexists.
Qed.

Lemma insert_row_lookup cls new_id attrs c :
  distinct_columns now cls -> c ∈ columns now cls ->
  insert_row (columns now cls) new_id attrs !! name c
  = Some (insert_value new_id attrs c).
Proof.
  intros Hnd Hc. unfold insert_row. apply elem_of_list_to_map_1.
  - rewrite <- list_fmap_compose. exact Hnd.
  - by apply (list_elem_of_fmap_2 (fun c => (name c, insert_value new_id attrs c))).
Qed.

Lemma schema_step_id_column exclude fields :
  schema_step exclude fields id_column = fields.
Proof. unfold schema_step. by case_bool_decide. Qed.

(** X6.  Whatever the exclusion list, the derived schema has no field
    [id].  With no exclusion it has one field for every other column, in
    column order; those of [created_at], [updated_at] and [is_active]
    carry the column defaults, so none of the three is required. *)
Theorem derived_schema_never_has_id cls :
  distinct_columns now cls ->
  (forall exclude_fields,
     "id" ∉ keys (model_fields
                    (create_pydantic_model now cls exclude_fields)))
  /\ model_fields (create_pydantic_model now cls None)
     = ("created_at",
        (Plain py_datetime, DefaultValue (VDateTime (created_at_default now))))
       :: ("updated_at",
           (Plain py_datetime, DefaultValue (VDateTime (updated_at_default now))))
       :: ("is_active", (Plain py_bool, DefaultValue (VBool true)))
       :: ((fun c => (name c, field_of c)) <$> own_columns cls).
Proof.
  intros Hnd.
  assert (forall exclude_fields,
            model_fields (create_pydantic_model now cls exclude_fields)
            = foldl (schema_step (option.default [] exclude_fields)) []
                (tail (columns now cls))) as Hfields.
  { intros ex. change (model_fields (create_pydantic_model now cls ex))
      with (foldl (schema_step (option.default [] ex)) [] (columns now cls)).
    unfold columns, BaseModel_columns. cbn [app foldl tail].
    fold id_column. by rewrite schema_step_id_column. }
  assert (NoDup (name <$> tail (columns now cls))
          /\ "id" ∉ name <$> tail (columns now cls)) as [Hnd' Hid].
  { unfold distinct_columns, columns in *. simpl in *.
    apply NoDup_cons in Hnd as [? ?]. by split. }
  assert (forall exclude cols acc k,
            k ∈ keys (foldl (schema_step exclude) acc cols) ->
            k ∈ keys acc \/ k ∈ name <$> cols) as Hkeys.
  { intros exclude. induction cols as [|c cols IH]; intros acc k Hk; [by left |].
    simpl in Hk. apply IH in Hk as [Hk | Hk]; [| right; by right].
    unfold schema_step in Hk.
    assert (forall f, k ∈ keys (dict_set acc (name c) f) ->
                      k ∈ keys acc \/ k ∈ name <$> c :: cols) as Hset.
    { intros f [-> | H]%dict_set_keys; [right; left | by left]. }
    case_bool_decide; [by left |].
    destruct (nullable c && _); [by eapply Hset |].
    destruct (default c) as [[|]|]; try by eapply Hset.
    case_bool_decide; [by left | by eapply Hset]. }
  split.
  - intros ex Hin. rewrite Hfields in Hin.
    apply Hkeys in Hin as [Hin | Hin]; [by apply elem_of_nil in Hin | done].
  - rewrite Hfields. simpl option.default.
    assert (forall cols acc,
              NoDup (name <$> cols) -> "id" ∉ name <$> cols ->
              (forall k, k ∈ keys acc -> k ∉ name <$> cols) ->
              foldl (schema_step []) acc cols
              = (acc ++ ((fun c => (name c, field_of c)) <$> cols))%list)
      as Hfold.
    { induction cols as [|c cols IH]; intros acc Hn Hi Hacc.
      - simpl. by rewrite app_nil_r.
      - simpl in Hn, Hi. apply NoDup_cons in Hn as [Hc Hn].
        apply not_elem_of_cons in Hi as [Hci Hi].
        assert (schema_step [] acc c = (acc ++ [(name c, field_of c)])%list)
          as Hstep.
        { unfold schema_step, field_of.
          rewrite (bool_decide_eq_false_2 (name c ∈ [])) by apply not_elem_of_nil.
          rewrite (bool_decide_eq_false_2 (name c = "id")) by done.
          rewrite andb_true_r. simpl.
          assert (name c ∉ keys acc) as Hfresh
            by (intros Hk; apply (Hacc _ Hk); left).
          destruct (nullable c); [by apply dict_set_fresh |].
          destruct (default c) as [[arg | seq] |]; by apply dict_set_fresh. }
        cbn [foldl]. rewrite Hstep, IH; [by rewrite <- app_assoc | done | done |].
        intros k Hk Hin. unfold keys in Hk. rewrite fmap_app in Hk.
        apply elem_of_app in Hk as [Hk | Hk].
        + apply (Hacc k Hk). by right.
        + apply list_elem_of_singleton in Hk. simpl in Hk. by subst k. }
    rewrite Hfold; [| done | done | by intros k Hk; apply elem_of_nil in Hk].
    reflexivity.
Qed.


(** X8.  A create that asks for an [id] some row of the table already
    has, active or soft-deleted, never stores anything: it fails, with
    HTTP 400 or before the uniqueness check, and the database is as
    before. *)
Theorem create_item_with_taken_id_fails cls db new_id item_data n r :
  NoDup (keys item_data) ->
  ("id", VInt n) ∈ item_data ->
  r ∈ table db (__tablename__ cls) ->
  r !! "id" = Some (VInt n) ->
  exists e, create_item now cls db new_id item_data = (db, Raise e)
            /\ create_failure e.
Proof.
  intros Hnd Hin Hr Hid.
  destruct (construct now cls item_data) as [attrs | e] eqn:Hc.
  - assert (attrs !! "id" = Some (VInt n)) as Hattr.
    { rewrite construct_fold in Hc.
      eapply construct_fold_assigned; [exact Hnd | exact Hin | | exact Hc].
      unfold is_column, columns. apply bool_decide_eq_true_2. simpl. left. }
    destruct (flush_insert (columns now cls) (__tablename__ cls) db
                (insert_row (columns now cls) new_id attrs)) as [db'|e']
      eqn:Hf; [| by eapply create_item_flush_Raise].
    exfalso. apply flush_insert_Return in Hf as [_ Hfresh].
    apply (Hfresh id_column r (id_column_elem cls) eq_refl Hr).
    unfold getattr. simpl. rewrite Hid. unfold insert_row, columns. simpl.
    rewrite lookup_insert_eq. unfold insert_value, getattr. simpl.
    by rewrite Hattr.
  - exists e. unfold create_item. rewrite Hc. split; [done |].
    by eapply construct_Raise.
Qed.

(** X9.  A create that gives no value to a column that is not nullable,
    has no default and is not the primary key never stores anything: it
    fails, and the database is as before. *)
Theorem create_item_without_required_column_fails cls db new_id item_data c :
  distinct_columns now cls ->
  c ∈ columns now cls ->
  nullable c = false -> default c = None -> primary_key c = false ->
  name c ∉ keys item_data ->
  exists e, create_item now cls db new_id item_data = (db, Raise e)
            /\ create_failure e.
Proof.
  intros Hnd Hc Hnull Hdef Hpk Hk.
  destruct (construct now cls item_data) as [attrs | e] eqn:Hcons.
  - destruct (flush_insert (columns now cls) (__tablename__ cls) db
                (insert_row (columns now cls) new_id attrs)) as [db'|e']
      eqn:Hf; [| by eapply create_item_flush_Raise].
    exfalso. unfold flush_insert, check_statement in Hf.
    destruct check_types; [done |].
    destruct check_not_null eqn:Hnn; [done |].
    unfold check_not_null in Hnn.
    pose proof (find_none_elem _ _ c Hnn Hc) as Hfalse. cbv beta in Hfalse.
    rewrite Hnull in Hfalse. simpl in Hfalse.
    apply bool_decide_eq_false in Hfalse. apply Hfalse.
    unfold getattr at 1. rewrite insert_row_lookup by done. simpl.
    unfold insert_value, getattr.
    rewrite (construct_unset cls item_data attrs (name c) Hcons Hk).
    simpl. by rewrite Hdef, Hpk.
  - exists e. unfold create_item. rewrite Hcons. split; [done |].
    by eapply construct_Raise.
Qed.

(** X10.  In the row a successful create has stored, every foreign key
    that is not NULL points to a row of the referenced table, whether
    that row is active or not. *)
Theorem created_row_references_exist cls db new_id item_data db' r c fk :
  create_item now cls db new_id item_data = (db', Return r) ->
  c ∈ columns now cls -> foreign_key c = Some fk ->
  getattr r (name c) <> VNone ->
  exists p, p ∈ table db' fk.1 /\ getattr p fk.2 = getattr r (name c).
Proof.
  unfold create_item.
  destruct construct as [attrs|]; [| done].
  destruct flush_insert as [db''|e'] eqn:Hf; [| by destruct e'].
  intros [= <- <-] Hc Hfk Hval.
  pose proof Hf as [Hdb Hfresh]%flush_insert_Return.
  assert (refresh (__tablename__ cls) db''
            (insert_row (columns now cls) new_id attrs)
          = insert_row (columns now cls) new_id attrs) as Href.
  { rewrite Hdb. apply refresh_inserted. intros r' Hr' Heq.
    apply (Hfresh id_column r' (id_column_elem cls) eq_refl Hr').
    unfold getattr. simpl. by rewrite Heq. }
  rewrite Href in *.
  unfold flush_insert, check_statement in Hf.
  destruct check_types; [done |]. destruct check_not_null; [done |].
  destruct check_unique; [done |].
  destruct check_foreign_keys eqn:Hcheck; [done |]. injection Hf as <-.
  unfold check_foreign_keys in Hcheck.
  pose proof (find_none_elem _ _ c Hcheck Hc) as Hfalse. cbv beta in Hfalse.
  rewrite Hfk in Hfalse.
  rewrite (bool_decide_eq_false_2 (_ = VNone)) in Hfalse by done.
  simpl in Hfalse. apply negb_false_iff in Hfalse.
  unfold references in Hfalse. apply existsb_exists in Hfalse as (p & Hp & Heq).
  exists p. split; [by apply list_elem_of_In |].
  by apply bool_decide_eq_true in Heq.
Qed.

(** X11.  The dictionary of the row a successful create returns has the
    column names as keys, in column order, and holds the whole row:
    reading it back as a map gives the stored row. *)
Theorem created_row_is_its_dictionary cls db new_id item_data db' r :
  distinct_columns now cls ->
  create_item now cls db new_id item_data = (db', Return r) ->
  keys (to_dict now cls r) = name <$> columns now cls
  /\ list_to_map (to_dict now cls r) = r.
Proof.
  intros Hnd. unfold create_item.
  destruct construct as [attrs|]; [| done].
  destruct flush_insert as [db''|e'] eqn:Hf; [| by destruct e'].
  intros [= <- <-].
  apply flush_insert_Return in Hf as [-> Hfresh].
  rewrite refresh_inserted.
  2:{ intros r' Hr' Heq.
      apply (Hfresh id_column r' (id_column_elem cls) eq_refl Hr').
      unfold getattr. simpl. by rewrite Heq. }
  split.
  - unfold to_dict, keys. rewrite <- list_fmap_compose. done.
  - unfold to_dict.
    transitivity (list_to_map
                    ((fun c => (name c, insert_value new_id attrs c))
                       <$> columns now cls) : Row); [| done].
    f_equal. apply list_fmap_ext. intros i c Hc.
    unfold getattr. rewrite insert_row_lookup; [done | done |].
    by eapply list_elem_of_lookup_2.
Qed.

(** *** Any sequence of calls *)








(** *** Pages *)


End Properties.

(** ** The operations on the sample database *)

Module Run.

Import Sample.

Example pen_is_found :
  to_dict now Product <$> get_item Product db 1
  = Some [ ("id", VInt 1); ("created_at", VDateTime 10);
           ("updated_at", VDateTime 11); ("is_active", VBool true);
           ("external_id", VInt 7); ("name", VStr "pen");
           ("label", VEnum "NEW"); ("description", VStr "blue") ].
Proof. vm_compute. reflexivity. Qed.

Example ink_is_hidden : get_item Product db 2 = None.
Proof. vm_compute. reflexivity. Qed.

Example delete_pen :
  let out := delete_item now Product db 1 in
  out.2 = Return true
  /\ to_dict now Product <$> table out.1 "products"
     = [ [ ("id", VInt 1); ("created_at", VDateTime 10);
           ("updated_at", VDateTime 1002); ("is_active", VBool false);
           ("external_id", VInt 7); ("name", VStr "pen");
           ("label", VEnum "NEW"); ("description", VStr "blue") ];
         to_dict now Product ink ].
Proof. vm_compute. split; reflexivity. Qed.

(** At the level of the CRUD operation, outside any request schema, an
    explicit [is_active = False] is stored as given. *)
Example create_item_explicit_inactive :
  let out :=
    create_item now Product db 3 (("is_active", VBool false) :: new_product) in
  (exists r, out.2 = Return r) /\ get_item Product out.1 3 = None.
Proof. vm_compute. split; [by eexists | reflexivity]. Qed.

End Run.

(** ** Properties of model discovery *)

Section DiscoveryFacts.

Import Discovery.

Lemma append_cons c s t : String c s ++ t = String c (s ++ t).
Proof. reflexivity. Qed.

Lemma append_nil_l t : "" ++ t = t.
Proof. reflexivity. Qed.

Lemma length_append s t :
  String.length (s ++ t) = (String.length s + String.length t)%nat.
Proof.
  induction s as [|c s IH]; [done |].
  rewrite append_cons. simpl. by rewrite IH.
Qed.

Lemma substring_0_all s m :
  (String.length s <= m)%nat -> String.substring 0 m s = s.
Proof.
  revert m. induction s as [|c s IH]; intros m Hm.
  - by destruct m.
  - destruct m as [|m]; simpl in *; [lia |]. rewrite IH; [done | lia].
Qed.

Lemma substring_split s n :
  String.substring 0 n s ++ String.substring n (String.length s - n) s = s.
Proof.
  revert s. induction n as [|n IH]; intros s.
  - rewrite Nat.sub_0_r, (substring_0_all s (String.length s)) by lia.
    by destruct s.
  - destruct s as [|c s]; [done |].
    simpl String.substring. simpl String.length.
    rewrite append_cons. f_equal. apply IH.
Qed.

Lemma substring_0_append s t :
  String.substring 0 (String.length s) (s ++ t) = s.
Proof.
  induction s as [|c s IH]; [by destruct t |].
  rewrite append_cons. simpl. by rewrite IH.
Qed.

Lemma substring_skip_append s t m :
  String.substring (String.length s) m (s ++ t) = String.substring 0 m t.
Proof.
  induction s as [|c s IH]; [done |].
  rewrite append_cons. simpl. apply IH.
Qed.

(** X15.  The file-name test of discovery: a file is scanned exactly when
    its name is some stem followed by [.py] and does not begin with two
    underscores; the module imported for it is named by that stem. *)
Theorem model_file_names filename :
  (is_model_file filename = true <->
   exists stem, filename = stem ++ ".py" /\ startswith filename "__" = false)
  /\ forall stem, without_last3 (stem ++ ".py") = stem.
Proof.
  assert (forall stem, without_last3 (stem ++ ".py") = stem) as Hstem.
  { intros stem. unfold without_last3. rewrite length_append. simpl.
    replace (String.length stem + 3 - 3)%nat with (String.length stem) by lia.
    apply substring_0_append. }
  split; [| exact Hstem].
  unfold is_model_file. rewrite andb_true_iff, negb_true_iff. split.
  - intros [Hend Hstart]. exists (without_last3 filename). split; [| done].
    unfold endswith in Hend. apply String.eqb_eq in Hend. simpl in Hend.
    destruct (decide (3 <= String.length filename)%nat) as [Hlen | Hlen].
    + pose proof (substring_split filename (String.length filename - 3)) as Hs.
      replace (String.length filename - (String.length filename - 3))%nat
        with 3%nat in Hs by lia.
      rewrite Hend in Hs. by rewrite <- Hs at 1.
    + exfalso. replace (String.length filename - 3)%nat with 0%nat in Hend by lia.
      rewrite substring_0_all in Hend by lia. subst filename. simpl in Hlen. lia.
  - intros (stem & -> & Hstart). split; [| done].
    unfold endswith. apply String.eqb_eq. rewrite length_append. simpl.
    replace (String.length stem + 3 - 3)%nat with (String.length stem) by lia.
    by rewrite substring_skip_append.
Qed.

Lemma dict_set_elem {V} (d : dict V) k v k' v' :
  (k', v') ∈ dict_set d k v -> (k', v') = (k, v) \/ (k', v') ∈ d.
Proof.
  induction d as [|[k0 v0] d IH]; simpl.
  - intros H. apply list_elem_of_singleton in H. by left.
  - case_bool_decide as Hk.
    + intros [H | H]%elem_of_cons; [left; by subst | right; by right].
    + intros [H | H]%elem_of_cons; [right; rewrite H; left |].
      destruct (IH H) as [? | ?]; [by left | right; by right].
Qed.




Lemma register_members_cons models name obj members :
  register_members models ((name, obj) :: members)
  = register_members
      (match obj with
       | Subclass cls => dict_set models name cls
       | _ => models
       end) members.
Proof. unfold register_members. simpl. by destruct obj as [| |? []]. Qed.

Lemma register_members_elem models members name cls :
  (name, cls) ∈ register_members models members ->
  (name, cls) ∈ models \/ (name, Subclass cls) ∈ members.
Proof.
  revert models. induction members as [|[n obj] members IH]; intros models H;
    [by left |].
  rewrite register_members_cons in H. apply IH in H as [H | H];
    [| right; by right].
  destruct obj as [| c |]; try by left.
  apply dict_set_elem in H as [[= -> ->] | H]; [right; left | by left].
Qed.



Lemma discover_fold models_dir env :
  discover_and_register_models models_dir env
  = if negb (path_exists env) then []
    else foldl (scan_file models_dir env) [] (listdir env).
Proof. reflexivity. Qed.

(** What a scan of some files adds to the registry. *)
Lemma scan_files_elem models_dir env files models name cls :
  (name, cls) ∈ foldl (scan_file models_dir env) models files ->
  (name, cls) ∈ models
  \/ exists filename members,
       filename ∈ files /\ is_model_file filename = true
       /\ import_module env (models_dir ++ "." ++ without_last3 filename)
          = Module_ members
       /\ (name, Subclass cls) ∈ members.
Proof.
  revert models. induction files as [|f files IH]; intros models H; [by left |].
  simpl in H. apply IH in H as [H | (f' & members & ? & ? & ? & ?)].
  - unfold scan_file in H. destruct (is_model_file f) eqn:Hf; [| by left].
    destruct import_module as [members|] eqn:Himp; [| by left].
    apply register_members_elem in H as [H | H]; [by left |].
    right. exists f, members. split; [left | done].
  - right. exists f', members. split; [by right | done].
Qed.



(** X16.  Every registered model was met as a subclass of [BaseModel] in
    a module that imported, and that module is the one named by a [.py]
    file of the models directory whose name does not begin with two
    underscores.  So neither [BaseModel] itself, nor a class outside its
    hierarchy, nor anything of [__init__.py] is registered. *)
Theorem discovered_models_come_from_model_files models_dir env name cls :
  (name, cls) ∈ discover_and_register_models models_dir env ->
  path_exists env = true
  /\ exists stem members,
       (stem ++ ".py") ∈ listdir env
       /\ startswith (stem ++ ".py") "__" = false
       /\ import_module env (models_dir ++ "." ++ stem) = Module_ members
       /\ (name, Subclass cls) ∈ members.
Proof.
  rewrite discover_fold. destruct (path_exists env); simpl;
    [| intros H; by apply elem_of_nil in H].
  intros H. split; [done |].
  apply scan_files_elem in H as [H | (f & members & Hf & Hfile & Himp & Hmem)];
    [by apply elem_of_nil in H |].
  apply (proj1 (model_file_names f)) in Hfile as (stem & -> & Hstart).
  rewrite (proj2 (model_file_names "") stem) in Himp.
  by exists stem, members.
Qed.





End DiscoveryFacts.

(** ** The theorems at work on the sample database *)

Lemma sample_primary_key_holds cls :
  __tablename__ cls = "products" \/ __tablename__ cls = "offers" ->
  primary_key_holds Sample.db cls.
Proof.
  unfold primary_key_holds. intros [-> | ->];
    apply (bool_decide_unpack _); vm_compute; exact I.
Defined.

Lemma sample_distinct_columns_Product :
  distinct_columns Sample.now Sample.Product.
Proof. apply (bool_decide_unpack _). vm_compute. exact I. Defined.

Lemma sample_distinct_columns_Offer : distinct_columns Sample.now Offer.
Proof. apply (bool_decide_unpack _). vm_compute. exact I. Defined.

(** C1 on the sample: the soft-deleted product is invisible to update and
    untouched by a delete of its id. *)
Lemma only_active_rows_are_visible_witness :
  primary_key_holds Sample.db Sample.Product
  /\ table (delete_item Sample.now Sample.Product Sample.db 2).1 "products" !! 1%nat
     = Some Sample.ink
  /\ update_item Sample.now Sample.Product Sample.db 2 [("name", VStr "nib")]
     = (Sample.db, Return None).
Proof.
  assert (primary_key_holds Sample.db Sample.Product) as Hpk
    by (apply sample_primary_key_holds; left; reflexivity).
  destruct (only_active_rows_are_visible Sample.now Sample.Product Sample.db 2 Hpk)
    as (_ & _ & _ & Hdel & Hnone).
  split; [exact Hpk |]. split.
  - apply Hdel; vm_compute; reflexivity.
  - apply Hnone. vm_compute. reflexivity.
Defined.

(** C2 as stated fails on the sample: deleting the pen moves its
    [updated_at] from 11 to the [onupdate] value 1002. *)
Lemma delete_changes_updated_at :
  ~ delete_changes_only_is_active Sample.now Sample.Product Sample.db 1.
Proof.
  intros H.
  destruct (H (delete_item Sample.now Sample.Product Sample.db 1).1 0%nat Sample.pen)
    as (r' & Hr' & _ & Hframe).
  - vm_compute. reflexivity.
  - vm_compute. reflexivity.
  - vm_compute. reflexivity.
  - specialize (Hframe "updated_at" ltac:(done)).
    vm_compute in Hr'. injection Hr' as <-.
    vm_compute in Hframe. discriminate Hframe.
Qed.

Lemma delete_item_soft_delete_frame_witness :
  let db' := (delete_item Sample.now Sample.Product Sample.db 1).1 in
  delete_item Sample.now Sample.Product Sample.db 1 = (db', Return true)
  /\ forall tn, length (table db' tn) = length (table Sample.db tn).
Proof.
  intros db'.
  assert (delete_item Sample.now Sample.Product Sample.db 1 = (db', Return true))
    as Hdel by (vm_compute; reflexivity).
  split; [exact Hdel |].
  apply (delete_item_soft_delete_frame Sample.now Sample.Product Sample.db 1 db').
  - apply sample_primary_key_holds. left. reflexivity.
  - exact sample_distinct_columns_Product.
  - exact Hdel.
Defined.


Example put_dangling_offer :
  make_update_endpoint Sample.now Offer (create_crud_operations Sample.now Offer)
    Sample.db 1 Sample.dangling_offer
  = (Sample.db,
     Raise (HTTPException 400 (DetailIntegrity (ForeignKeyViolation "product_id")))).
Proof. vm_compute. reflexivity. Qed.


Lemma integrity_violation_is_400_and_rolled_back_witness :
  distinct_columns Sample.now Offer
  /\ update_item Sample.now Offer Sample.db 1 Sample.dangling_offer
     = (Sample.db,
        Raise (HTTPException HTTP_400_BAD_REQUEST
                 (DetailIntegrity (ForeignKeyViolation "product_id")))).
Proof.
  split; [exact sample_distinct_columns_Offer |].
  destruct (integrity_violation_is_400_and_rolled_back Sample.now Offer Sample.db
              sample_distinct_columns_Offer) as (_ & Hupd & _).
  apply (Hupd 1 Sample.dangling_offer Sample.pen_offer).
  - vm_compute. reflexivity.
  - vm_compute. reflexivity.
Defined.


Lemma request_schema_follows_columns_witness :
  distinct_columns Sample.now Sample.Product
  /\ keys (model_fields
             (create_pydantic_model Sample.now Sample.Product (Some request_exclude)))
     = ["external_id"; "name"; "label"; "description"].
Proof.
  split; [exact sample_distinct_columns_Product |].
  rewrite (proj1 (request_schema_follows_columns Sample.now Sample.Product
                    sample_distinct_columns_Product)).
  vm_compute. reflexivity.
Defined.


Lemma delete_item_is_idempotent_witness :
  let db1 := (delete_item Sample.now Sample.Product Sample.db 1).1 in
  delete_item Sample.now Sample.Product Sample.db 2 = (Sample.db, Return false)
  /\ delete_item Sample.now Sample.Product Sample.db 1 = (db1, Return true)
  /\ delete_item Sample.now Sample.Product db1 1 = (db1, Return false).
Proof.
  intros db1.
  destruct (delete_item_is_idempotent Sample.now Sample.Product Sample.db 2)
    as (Hgone & _ & _).
  destruct (delete_item_is_idempotent Sample.now Sample.Product Sample.db 1)
    as (_ & Htwice & _).
  assert (delete_item Sample.now Sample.Product Sample.db 1 = (db1, Return true))
    as Hdel by (vm_compute; reflexivity).
  split; [| split; [exact Hdel | exact (Htwice db1 Hdel)]].
  apply Hgone. intros r Hr Hid.
  change (table Sample.db (__tablename__ Sample.Product))
    with [Sample.pen; Sample.ink] in Hr.
  apply elem_of_cons in Hr as [-> | Hr].
  - vm_compute in Hid. discriminate Hid.
  - apply list_elem_of_singleton in Hr as ->. vm_compute. reflexivity.
Defined.

Lemma created_item_is_active_and_found_witness :
  let ops := create_crud_operations Sample.now Sample.Product in
  let out := make_create_endpoint Sample.now Sample.Product ops
               Sample.db 3 Sample.new_product in
  validated (create_pydantic_model Sample.now Sample.Product (Some request_exclude))
    Sample.new_product = true
  /\ exists r, is_active r = true /\ get_item Sample.Product out.1 3 = Some r.
Proof.
  intros ops out.
  assert (validated
            (create_pydantic_model Sample.now Sample.Product (Some request_exclude))
            Sample.new_product = true) as Hv by (vm_compute; reflexivity).
  split; [exact Hv |].
  destruct (created_item_is_active_and_found Sample.now Sample.Product Sample.db 3
              Sample.new_product out.1
              [ ("id", VInt 3); ("created_at", VDateTime 1000);
                ("updated_at", VDateTime 1001); ("is_active", VBool true);
                ("external_id", VInt 9); ("name", VStr "cap");
                ("label", VEnum "NEW"); ("description", VStr "red") ] Hv)
    as (r & _ & Hact & _ & _ & Hget).
  - vm_compute. reflexivity.
  - exists r. split; [exact Hact | exact Hget].
Defined.

(** ** The further properties on the sample database *)


Lemma pair_from_snd {A B} (p : A * B) (b : B) : p.2 = b -> p = (p.1, b).
Proof. destruct p as [a b']. simpl. by intros ->. Qed.

Lemma deleted_item_is_hidden_witness :
  let db' := (delete_item Sample.now Sample.Product Sample.db 1).1 in
  delete_item Sample.now Sample.Product Sample.db 1 = (db', Return true)
  /\ get_item Sample.Product db' 1 = None.
Proof.
  intros db'.
  assert (delete_item Sample.now Sample.Product Sample.db 1 = (db', Return true))
    as Hdel by (apply pair_from_snd; vm_compute; reflexivity).
  split; [exact Hdel |].
  exact (proj1 (deleted_item_is_hidden Sample.now Sample.Product Sample.db 1 db'
                  Hdel)).
Defined.

Lemma other_items_read_the_same_witness :
  let db2 := (create_item Sample.now Sample.Product Sample.db 3
                Sample.new_product).1 in
  distinct_columns Sample.now Sample.Product /\ 3 <> 1
  /\ get_item Sample.Product
       (delete_item Sample.now Sample.Product db2 1).1 3
     = get_item Sample.Product db2 3.
Proof.
  intros db2.
  assert (3 <> 1) as Hne by lia.
  split; [exact sample_distinct_columns_Product |]. split; [exact Hne |].
  exact (proj1 (proj2 (other_items_read_the_same Sample.now Sample.Product db2
                         1 3 sample_distinct_columns_Product Hne))).
Defined.

Lemma get_item_agrees_with_get_items_witness :
  get_item Sample.Product Sample.db 1 = Some Sample.pen
  /\ exists rows,
       get_items Sample.Product Sample.db (Some 0)
         (Some (Z.of_nat
                  (length (table Sample.db (__tablename__ Sample.Product)))))
       = Return rows
       /\ Sample.pen ∈ rows.
Proof.
  assert (get_item Sample.Product Sample.db 1 = Some Sample.pen) as Hget
    by (vm_compute; reflexivity).
  split; [exact Hget |].
  exact (proj1 (get_item_agrees_with_get_items Sample.Product Sample.db)
           1 Sample.pen Hget).
Defined.

Lemma put_then_get_reads_the_update_witness :
  let ops := create_crud_operations Sample.now Sample.Product in
  let db' := (make_update_endpoint Sample.now Sample.Product ops Sample.db 1
                Sample.new_product).1 in
  let d := [ ("id", VInt 1); ("created_at", VDateTime 10);
             ("updated_at", VDateTime 1002); ("is_active", VBool true);
             ("external_id", VInt 9); ("name", VStr "cap");
             ("label", VEnum "NEW"); ("description", VStr "red") ] in
  validated (create_pydantic_model Sample.now Sample.Product (Some request_exclude))
    Sample.new_product = true
  /\ make_update_endpoint Sample.now Sample.Product ops Sample.db 1
       Sample.new_product = (db', Return (JDict d))
  /\ make_get_endpoint Sample.now Sample.Product ops db' 1
     = (db', Return (JDict d)).
Proof.
  intros ops db' d.
  assert (validated
            (create_pydantic_model Sample.now Sample.Product (Some request_exclude))
            Sample.new_product = true) as Hv by (vm_compute; reflexivity).
  assert (make_update_endpoint Sample.now Sample.Product ops Sample.db 1
            Sample.new_product = (db', Return (JDict d))) as Hput
    by (apply pair_from_snd; vm_compute; reflexivity).
  split; [exact Hv |]. split; [exact Hput |].
  refine (proj1 (put_then_get_reads_the_update Sample.now Sample.Product
                   Sample.db 1 Sample.new_product db' d
                   sample_distinct_columns_Product _ Hv Hput)).
  apply sample_primary_key_holds. left. reflexivity.
Defined.


Lemma derived_schema_never_has_id_witness :
  distinct_columns Sample.now Offer
  /\ "id" ∉ keys (model_fields (create_pydantic_model Sample.now Offer None)).
Proof.
  split; [exact sample_distinct_columns_Offer |].
  exact (proj1 (derived_schema_never_has_id Sample.now Offer
                  sample_distinct_columns_Offer) None).
Defined.


Lemma create_item_with_taken_id_fails_witness :
  Sample.ink ∈ table Sample.db (__tablename__ Sample.Product)
  /\ Sample.ink !! "id" = Some (VInt 2)
  /\ exists e,
       create_item Sample.now Sample.Product Sample.db 3
         (("id", VInt 2) :: Sample.new_product) = (Sample.db, Raise e).
Proof.
  assert (Sample.ink ∈ table Sample.db (__tablename__ Sample.Product)) as Hin.
  { change (table Sample.db (__tablename__ Sample.Product))
      with [Sample.pen; Sample.ink]. right. left. }
  assert (Sample.ink !! "id" = Some (VInt 2)) as Hid by (vm_compute; reflexivity).
  split; [exact Hin |]. split; [exact Hid |].
  destruct (create_item_with_taken_id_fails Sample.now Sample.Product Sample.db 3
              (("id", VInt 2) :: Sample.new_product) 2 Sample.ink)
    as (e & He & _).
  - apply (bool_decide_unpack _). vm_compute. exact I.
  - left.
  - exact Hin.
  - exact Hid.
  - by exists e.
Defined.

Lemma create_item_without_required_column_fails_witness :
  distinct_columns Sample.now Offer
  /\ exists e,
       create_item Sample.now Offer Sample.db 2
         [("reference_year", VInt 2024); ("value", VInt 1)]
       = (Sample.db, Raise e).
Proof.
  split; [exact sample_distinct_columns_Offer |].
  destruct (create_item_without_required_column_fails Sample.now Offer Sample.db 2
              [("reference_year", VInt 2024); ("value", VInt 1)]
              (mkColumn "reference_month" Integer false false None None None))
    as (e & He & _).
  - exact sample_distinct_columns_Offer.
  - unfold columns. apply elem_of_app. right.
    do 2 apply list_elem_of_further. apply list_elem_of_here.
  - reflexivity.
  - reflexivity.
  - reflexivity.
  - apply (bool_decide_unpack _). vm_compute. exact I.
  - by exists e.
Defined.

(** An offer may be created for a product that was soft-deleted: the
    reference is to the row, which is still there. *)
Lemma created_row_references_exist_witness :
  let item_data := [("product_id", VInt 2); ("reference_year", VInt 2024);
                    ("reference_month", VInt 7); ("value", VInt 90)] in
  let db' := (create_item Sample.now Offer Sample.db 2 item_data).1 in
  let r : Row :=
    list_to_map
      [ ("id", VInt 2); ("created_at", VDateTime 1000);
        ("updated_at", VDateTime 1001); ("is_active", VBool true);
        ("product_id", VInt 2); ("reference_year", VInt 2024);
        ("reference_month", VInt 7); ("value", VInt 90) ] in
  create_item Sample.now Offer Sample.db 2 item_data = (db', Return r)
  /\ exists p, p ∈ table db' "products"
               /\ getattr p "id" = getattr r "product_id".
Proof.
  intros item_data db' r.
  assert (create_item Sample.now Offer Sample.db 2 item_data = (db', Return r))
    as Hc by (apply pair_from_snd; vm_compute; reflexivity).
  split; [exact Hc |].
  apply (created_row_references_exist Sample.now Offer Sample.db 2 item_data
           db' r
           (mkColumn "product_id" Integer false false None None
              (Some ("products", "id"))) ("products", "id") Hc).
  - unfold columns. apply elem_of_app. right. apply list_elem_of_here.
  - reflexivity.
  - vm_compute. discriminate.
Defined.

Lemma created_row_is_its_dictionary_witness :
  let db' := (create_item Sample.now Sample.Product Sample.db 3
                Sample.new_product).1 in
  let r : Row :=
    list_to_map
      [ ("id", VInt 3); ("created_at", VDateTime 1000);
        ("updated_at", VDateTime 1001); ("is_active", VBool true);
        ("external_id", VInt 9); ("name", VStr "cap");
        ("label", VEnum "NEW"); ("description", VStr "red") ] in
  distinct_columns Sample.now Sample.Product
  /\ create_item Sample.now Sample.Product Sample.db 3 Sample.new_product
     = (db', Return r)
  /\ list_to_map (to_dict Sample.now Sample.Product r) = r.
Proof.
  intros db' r.
  assert (create_item Sample.now Sample.Product Sample.db 3 Sample.new_product
          = (db', Return r)) as Hc
    by (apply pair_from_snd; vm_compute; reflexivity).
  split; [exact sample_distinct_columns_Product |]. split; [exact Hc |].
  exact (proj2 (created_row_is_its_dictionary Sample.now Sample.Product Sample.db
                  3 Sample.new_product db' r sample_distinct_columns_Product
                  Hc)).
Defined.





Lemma model_file_names_witness :
  Discovery.startswith "product.py" "__" = false
  /\ Discovery.is_model_file "product.py" = true
  /\ Discovery.without_last3 "product.py" = "product".
Proof.
  assert (Discovery.startswith "product.py" "__" = false) as Hs by reflexivity.
  split; [exact Hs |]. split.
  - apply (proj1 (model_file_names "product.py")).
    exists "product". split; [reflexivity | exact Hs].
  - exact (proj2 (model_file_names "") "product").
Defined.

Lemma discovered_models_come_from_model_files_witness :
  ("Offer", Offer)
    ∈ Discovery.discover_and_register_models "models" SampleFiles.env
  /\ exists stem members,
       (stem ++ ".py") ∈ Discovery.listdir SampleFiles.env
       /\ Discovery.import_module SampleFiles.env ("models" ++ "." ++ stem)
          = Discovery.Module_ members
       /\ ("Offer", Discovery.Subclass Offer) ∈ members.
Proof.
  assert (("Offer", Offer)
            ∈ Discovery.discover_and_register_models "models" SampleFiles.env)
    as Hin by (vm_compute; left).
  split; [exact Hin |].
  destruct (discovered_models_come_from_model_files "models" SampleFiles.env
              "Offer" Offer Hin) as (_ & stem & members & Hf & _ & Himp & Hmem).
  by exists stem, members.
Defined.



Lemma update_item_can_deactivate_witness :
  let db' := (update_item Sample.now Sample.Product Sample.db 1
                [("is_active", VBool false)]).1 in
  let r : Row :=
    list_to_map
      [ ("id", VInt 1); ("created_at", VDateTime 10);
        ("updated_at", VDateTime 1002); ("is_active", VBool false);
        ("external_id", VInt 7); ("name", VStr "pen");
        ("label", VEnum "NEW"); ("description", VStr "blue") ] in
  update_item Sample.now Sample.Product Sample.db 1 [("is_active", VBool false)]
  = (db', Return (Some r))
  /\ is_active r = false
  /\ get_item Sample.Product db' 1 = None.
Proof.
  intros db' r.
  assert (update_item Sample.now Sample.Product Sample.db 1
            [("is_active", VBool false)] = (db', Return (Some r))) as Hupd
    by (apply pair_from_snd; vm_compute; reflexivity).
  split; [exact Hupd |].
  apply (update_item_can_deactivate Sample.now Sample.Product Sample.db 1
           [("is_active", VBool false)] db' r).
  - exact sample_distinct_columns_Product.
  - apply sample_primary_key_holds. left. reflexivity.
  - apply (bool_decide_unpack _). vm_compute. exact I.
  - left.
  - exact Hupd.
Defined.
